(** * django-utils core: field factories, naming helpers, model bases

    A shallow embedding of [core_utils/fields.py] and [core_utils/models.py].
    Python values are a small tagged union, keyword dictionaries are finite
    maps with string keys, raising code returns a [result], and the objects a
    method mutates are passed in and handed back explicitly. *)

From Stdlib Require Import ZArith QArith Lia Ascii String.
From stdpp Require Import base option gmap strings list fin_maps.

(** ** Python values, exceptions and calls *)

Module Py.

(** A float is a finite binary fraction, an infinity or a NaN; a finite one is
    kept as the rational it denotes (Python compares ints and floats exactly). *)
Inductive pyfloat :=
  | FFinite (q : Q)
  | FPosInf
  | FNegInf
  | FNaN.

#[warnings="-register-all"]
Inductive pyval :=
  | VNone
  | VBool (b : bool)
  | VInt (z : Z)
  | VFloat (f : pyfloat)
  | VStr (s : string)
  | VList (items : list pyval)
  | VTuple (items : list pyval)
  | VRef (qualname : string)           (* a class, function or module constant *)
  | VURLValidator (schemes : list string).

(** [bool(v)], as used by [or]. *)
Definition truthy (v : pyval) : bool :=
  match v with
  | VNone => false
  | VBool b => b
  | VInt z => negb (z =? 0)%Z
  | VFloat (FFinite q) => negb (Qeq_bool q 0)
  | VFloat _ => true
  | VStr s => negb (String.eqb s "")
  | VList items | VTuple items => match items with [] => false | _ => true end
  | VRef _ => true
  | VURLValidator _ => true
  end.

(** [a or b] *)
Definition py_or (a b : pyval) : pyval := if truthy a then a else b.

(** [v is not None] *)
Definition is_not_None (v : pyval) : bool :=
  match v with VNone => false | _ => true end.

Inductive exn :=
  | TypeError
  | ValidationError (message : string)
  | AttributeError
  | ValueError
  | DoesNotExist
  | MultipleObjectsReturned.

Inductive result (A : Type) :=
  | Ok (a : A)
  | Raise (e : exn).
Arguments Ok {A} a.
Arguments Raise {A} e.

#[global] Instance result_ret : MRet result := λ A a, Ok a.
#[global] Instance result_bind : MBind result :=
  λ A B f m, match m with Ok a => f a | Raise e => Raise e end.

(** Binding the arguments of a call to the parameters of a [def]: positional
    arguments are consumed left to right, then keywords by name, then the
    parameter's default; anything else is a [TypeError]. *)
Section Binding.
Context {A : Type}.

Definition call_args : Type := list A * gmap string A.

Definition bind_param (name : string) (dflt : option A) (st : call_args)
  : result (A * call_args) :=
  match st.1 with
  | a :: rest =>
      match st.2 !! name with
      | Some _ => Raise TypeError                  (* multiple values *)
      | None => Ok (a, (rest, st.2))
      end
  | [] =>
      match st.2 !! name with
      | Some v => Ok (v, ([], delete name st.2))
      | None =>
          match dflt with
          | Some d => Ok (d, ([], st.2))
          | None => Raise TypeError                (* missing argument *)
          end
      end
  end.

(** [**kwargs]: takes the keywords left; extra positionals are an error. *)
Definition bind_varkw (st : call_args) : result (gmap string A) :=
  match st.1 with
  | [] => Ok st.2
  | _ :: _ => Raise TypeError
  end.

(** A signature without [**kwargs]: nothing may be left. *)
Definition bind_done (st : call_args) : result unit :=
  match st.1 with
  | [] => if decide (dom st.2 = (∅ : gset string)) then Ok tt else Raise TypeError
  | _ :: _ => Raise TypeError
  end.
End Binding.

(** [dict(k1=v1, ...)] and [d.update(kwargs)] (shallow: values are replaced
    whole). *)
Definition dict (items : list (string * pyval)) : gmap string pyval :=
  list_to_map items.

Definition dict_update (d kwargs : gmap string pyval) : gmap string pyval :=
  kwargs ∪ d.

(** [d.pop(key, None)] *)
Definition dict_pop (key : string) (d : gmap string pyval)
  : pyval * gmap string pyval :=
  (default VNone (d !! key), delete key d).

End Py.
Import Py.

(** ** The string-inflection package *)

Module Inflection.

Definition is_upper (c : ascii) : bool :=
  (65 <=? nat_of_ascii c)%nat && (nat_of_ascii c <=? 90)%nat.
Definition is_lower (c : ascii) : bool :=
  (97 <=? nat_of_ascii c)%nat && (nat_of_ascii c <=? 122)%nat.
Definition is_digit (c : ascii) : bool :=
  (48 <=? nat_of_ascii c)%nat && (nat_of_ascii c <=? 57)%nat.

Definition to_lower (c : ascii) : ascii :=
  if is_upper c then ascii_of_nat (nat_of_ascii c + 32) else c.

(** First pass of [underscore]: an upper-case letter that follows an
    upper-case letter and is followed by a lower-case one starts a word
    ("HTMLParser" becomes "HTML_Parser"). *)
Fixpoint split_acronym (prev_upper : bool) (s : string) : string :=
  match s with
  | EmptyString => EmptyString
  | String c rest =>
      let next_lower :=
        match rest with String d _ => is_lower d | EmptyString => false end in
      let tail := String c (split_acronym (is_upper c) rest) in
      if prev_upper && is_upper c && next_lower then String "_"%char tail else tail
  end.

(** Second pass: an upper-case letter after a lower-case letter or a digit
    starts a word ("orderItem" becomes "order_Item"). *)
Fixpoint split_camel (prev_low_or_digit : bool) (s : string) : string :=
  match s with
  | EmptyString => EmptyString
  | String c rest =>
      let tail := String c (split_camel (is_lower c || is_digit c) rest) in
      if prev_low_or_digit && is_upper c then String "_"%char tail else tail
  end.

(** [str.replace(old, new)] for one-character [old] and [new]. *)
Fixpoint replace_char (old new : ascii) (s : string) : string :=
  match s with
  | EmptyString => EmptyString
  | String c rest =>
      String (if Ascii.eqb c old then new else c) (replace_char old new rest)
  end.

Fixpoint lower (s : string) : string :=
  match s with
  | EmptyString => EmptyString
  | String c rest => String (to_lower c) (lower rest)
  end.

(** Modelled from the spec: [inflection.underscore] is an imported package,
    not part of the sources; it "converts a class name from camel/Pascal case
    to lower-case underscore-separated words". The four steps are the
    package's: split acronyms, split at lower-to-upper boundaries, turn
    dashes into underscores, lower-case (on ASCII names). *)
Definition underscore (word : string) : string :=
  let word := split_acronym false word in
  let word := split_camel false word in
  let word := replace_char "-"%char "_"%char word in
  lower word.

End Inflection.

(** ** core_utils/fields.py *)

Module Fields.

(** A field descriptor: the field class that was called, with the positional
    and keyword arguments it was called with. *)
Record Field := mkField {
  field_class : string;
  field_args : list pyval;
  field_options : gmap string pyval
}.

(** [cls( *args, k=v, ..., **star)]: a keyword passed both by name and through
    [**star] is a [TypeError] at the call. *)
Definition construct (cls : string) (args : list pyval)
    (named : list (string * pyval)) (star : gmap string pyval) : result Field :=
  if forallb (λ kv, bool_decide (kv.1 ∉ dom star)) named
  then Ok (mkField cls args (foldr (λ kv opts, <[kv.1 := kv.2]> opts) star named))
  else Raise TypeError.

Definition User : pyval := VRef "django.contrib.auth.models.User".
Definition PROTECT : pyval := VRef "django.db.models.PROTECT".
Definition uuid4 : pyval := VRef "uuid.uuid4".

Definition CHAR_FIELD_MAX_LENGTH : Z := 1024.
Definition URL_FIELD_MAX_LENGTH : Z := 255.
Definition GEO_LOCATION_MAX_DIGITS : Z := 9.
Definition GEO_LOCATION_DECIMAL_PLACES : Z := 6.
Definition NAME_FIELD_MAX_LENGTH : Z := 255.
Definition USER_AGENT_FIELD_MAX_LENGTH : Z := 512.
Definition DEFAULT_TIME_ZONE : string := "America/New_York".
Definition _im_schemes : list string := ["im"; "xmpp"].
Definition _url_schemes : list string := ["http"; "https"; "ftp"; "ftps"].
Definition _other_schemes : list string := ["tel"; "mailto"; "urn"].
Definition _uri_schemes : list string :=
  _im_schemes ++ _url_schemes ++ _other_schemes.

(** The [defaults = dict(...)] of each factory. *)
Definition auto_field_defaults : gmap string pyval :=
  dict [("blank", VBool true); ("null", VBool false);
        ("primary_key", VBool true); ("unique", VBool true)].
Definition boolean_field_defaults : gmap string pyval :=
  dict [("blank", VBool false); ("null", VBool false); ("default", VBool false)].
Definition char_field_defaults : gmap string pyval :=
  dict [("max_length", VInt CHAR_FIELD_MAX_LENGTH); ("blank", VBool false);
        ("null", VBool false); ("unique", VBool false)].
Definition date_field_defaults : gmap string pyval :=
  dict [("auto_now", VBool false); ("auto_now_add", VBool false);
        ("blank", VBool false); ("null", VBool false)].
Definition datetime_field_defaults : gmap string pyval :=
  dict [("auto_now", VBool false); ("auto_now_add", VBool false);
        ("blank", VBool false); ("null", VBool false)].
Definition decimal_field_defaults (max_digits decimal_places : pyval)
  : gmap string pyval :=
  dict [("decimal_places", decimal_places); ("max_digits", max_digits);
        ("default", VInt 0); ("blank", VBool false); ("null", VBool false)].
Definition floating_point_field_defaults : gmap string pyval :=
  dict [("blank", VBool false); ("null", VBool false);
        ("default", VFloat (FFinite 0))].
Definition foreign_key_field_defaults : gmap string pyval :=
  dict [("blank", VBool false); ("db_constraint", VBool true);
        ("null", VBool false); ("on_delete", PROTECT)].
Definition integer_field_defaults : gmap string pyval :=
  dict [("default", VInt 0); ("blank", VBool false); ("null", VBool false)].
Definition ip_address_field_defaults : gmap string pyval :=
  dict [("null", VBool false); ("blank", VBool false)].
Definition many_to_many_field_defaults : gmap string pyval :=
  dict [("db_constraint", VBool true); ("null", VBool true); ("blank", VBool true)].
Definition one_to_one_field_defaults : gmap string pyval :=
  dict [("blank", VBool false); ("db_constraint", VBool true);
        ("null", VBool false); ("on_delete", PROTECT)].
Definition small_integer_field_defaults : gmap string pyval :=
  dict [("default", VInt 0); ("blank", VBool false); ("null", VBool false)].
Definition text_field_defaults : gmap string pyval :=
  dict [("blank", VBool true); ("null", VBool true); ("unique", VBool false)].
Definition url_field_defaults : gmap string pyval :=
  dict [("max_length", VInt URL_FIELD_MAX_LENGTH); ("null", VBool false);
        ("blank", VBool false)].
Definition uuid_field_defaults : gmap string pyval :=
  dict [("unique", VBool true); ("default", uuid4); ("db_index", VBool true);
        ("editable", VBool false)].
Definition annotation_field_defaults : gmap string pyval :=
  dict [("blank", VBool false); ("null", VBool false); ("unique", VBool false)].
Definition description_field_defaults : gmap string pyval :=
  dict [("blank", VBool false); ("null", VBool false); ("unique", VBool false)].
Definition geo_location_field_defaults : gmap string pyval :=
  dict [("max_digits", VInt GEO_LOCATION_MAX_DIGITS);
        ("decimal_places", VInt GEO_LOCATION_DECIMAL_PLACES)].
Definition longitude_field_defaults : gmap string pyval :=
  dict [("validators", VList [VRef "core_utils.fields.longitude_validator"])].
Definition latitude_field_defaults : gmap string pyval :=
  dict [("validators", VList [VRef "core_utils.fields.latitude_validator"])].
Definition mac_address_field_defaults : gmap string pyval :=
  dict [("unique", VBool true); ("null", VBool false); ("blank", VBool false)].
Definition name_field_defaults : gmap string pyval :=
  dict [("max_length", VInt NAME_FIELD_MAX_LENGTH); ("unique", VBool true);
        ("db_index", VBool true); ("null", VBool false); ("blank", VBool false)].
Definition user_agent_field_defaults : gmap string pyval :=
  dict [("null", VBool false); ("blank", VBool false);
        ("max_length", VInt USER_AGENT_FIELD_MAX_LENGTH)].
Definition time_zone_field_defaults : gmap string pyval :=
  dict [("null", VBool false); ("blank", VBool false);
        ("default", VStr DEFAULT_TIME_ZONE)].
Definition phone_number_field_defaults : gmap string pyval :=
  dict [("null", VBool false); ("blank", VBool false)].
Definition email_field_defaults : gmap string pyval :=
  dict [("null", VBool false); ("blank", VBool false)].
Definition instance_messaging_field_defaults : gmap string pyval :=
  dict [("null", VBool false); ("blank", VBool false);
        ("validators", VList [VURLValidator _im_schemes])].
Definition uri_field_defaults : gmap string pyval :=
  dict [("null", VBool false); ("blank", VBool false);
        ("validators", VList [VURLValidator _uri_schemes])].
Definition priority_field_defaults : gmap string pyval :=
  dict [("default", VInt 0)].

Section Factories.
(** [utils.core.class_name] and [inflection.camelize] are imported. *)
Context (class_name : pyval → string) (camelize : string → string).

Definition auto_field (args : list pyval) (kw : gmap string pyval) : result Field :=
  kwargs ← bind_varkw (args, kw);
  let defaults := dict_update auto_field_defaults kwargs in
  construct "models.AutoField" [] [] defaults.

Definition boolean_field (args : list pyval) (kw : gmap string pyval) : result Field :=
  kwargs ← bind_varkw (args, kw);
  let defaults := dict_update boolean_field_defaults kwargs in
  construct "models.BooleanField" [] [] defaults.

Definition file_field (args : list pyval) (kw : gmap string pyval) : result Field :=
  '(upload_to, st) ← bind_param "upload_to" None (args, kw);
  kwargs ← bind_varkw st;
  construct "models.FileField" [] [("upload_to", upload_to)] kwargs.

Definition char_field (args : list pyval) (kw : gmap string pyval) : result Field :=
  kwargs ← bind_varkw (args, kw);
  let defaults := dict_update char_field_defaults kwargs in
  construct "models.CharField" [] [] defaults.

Definition date_field (args : list pyval) (kw : gmap string pyval) : result Field :=
  kwargs ← bind_varkw (args, kw);
  let defaults := dict_update date_field_defaults kwargs in
  construct "models.DateField" [] [] defaults.

Definition datetime_field (args : list pyval) (kw : gmap string pyval) : result Field :=
  kwargs ← bind_varkw (args, kw);
  let defaults := dict_update datetime_field_defaults kwargs in
  construct "models.DateTimeField" [] [] defaults.

Definition decimal_field (args : list pyval) (kw : gmap string pyval) : result Field :=
  '(max_digits, st) ← bind_param "max_digits" None (args, kw);
  '(decimal_places, st) ← bind_param "decimal_places" None st;
  kwargs ← bind_varkw st;
  let defaults :=
    dict_update (decimal_field_defaults max_digits decimal_places) kwargs in
  construct "models.DecimalField" [] [] defaults.

Definition floating_point_field (args : list pyval) (kw : gmap string pyval) : result Field :=
  kwargs ← bind_varkw (args, kw);
  let defaults := dict_update floating_point_field_defaults kwargs in
  construct "models.FloatField" [] [] defaults.

Definition foreign_key_field (args : list pyval) (kw : gmap string pyval) : result Field :=
  '(to, st) ← bind_param "to" None (args, kw);
  kwargs ← bind_varkw st;
  let defaults := dict_update foreign_key_field_defaults kwargs in
  construct "models.ForeignKey" [to] [] defaults.

Definition image_field (args : list pyval) (kw : gmap string pyval) : result Field :=
  kwargs ← bind_varkw (args, kw);
  construct "models.ImageField" [] [] kwargs.

Definition integer_field (args : list pyval) (kw : gmap string pyval) : result Field :=
  kwargs ← bind_varkw (args, kw);
  let defaults := dict_update integer_field_defaults kwargs in
  construct "models.IntegerField" [] [] defaults.

Definition ip_address_field (args : list pyval) (kw : gmap string pyval) : result Field :=
  kwargs ← bind_varkw (args, kw);
  let defaults := dict_update ip_address_field_defaults kwargs in
  construct "models.GenericIPAddressField" [] [] defaults.

Definition many_to_many_field (args : list pyval) (kw : gmap string pyval) : result Field :=
  '(to, st) ← bind_param "to" None (args, kw);
  '(db_table, st) ← bind_param "db_table" None st;
  kwargs ← bind_varkw st;
  let '(related_name, kwargs) := dict_pop "related_name" kwargs in
  let defaults := dict_update many_to_many_field_defaults kwargs in
  let related_name :=
    py_or related_name (VStr (camelize (class_name to) +:+ "_set")) in
  construct "models.ManyToManyField" [to]
    [("db_table", db_table); ("related_name", related_name)] defaults.

Definition one_to_one_field (args : list pyval) (kw : gmap string pyval) : result Field :=
  '(to, st) ← bind_param "to" None (args, kw);
  kwargs ← bind_varkw st;
  let defaults := dict_update one_to_one_field_defaults kwargs in
  construct "models.OneToOneField" [to] [] defaults.

Definition small_integer_field (args : list pyval) (kw : gmap string pyval) : result Field :=
  kwargs ← bind_varkw (args, kw);
  let defaults := dict_update small_integer_field_defaults kwargs in
  construct "models.SmallIntegerField" [] [] defaults.

Definition text_field (args : list pyval) (kw : gmap string pyval) : result Field :=
  kwargs ← bind_varkw (args, kw);
  let defaults := dict_update text_field_defaults kwargs in
  construct "models.TextField" [] [] defaults.

Definition url_field (args : list pyval) (kw : gmap string pyval) : result Field :=
  kwargs ← bind_varkw (args, kw);
  let defaults := dict_update url_field_defaults kwargs in
  construct "models.URLField" [] [] defaults.

Definition uuid_field (args : list pyval) (kw : gmap string pyval) : result Field :=
  kwargs ← bind_varkw (args, kw);
  let defaults := dict_update uuid_field_defaults kwargs in
  construct "models.UUIDField" [] [] defaults.

Definition annotation_field (args : list pyval) (kw : gmap string pyval) : result Field :=
  kwargs ← bind_varkw (args, kw);
  let defaults := dict_update annotation_field_defaults kwargs in
  text_field [] defaults.

Definition description_field (args : list pyval) (kw : gmap string pyval) : result Field :=
  kwargs ← bind_varkw (args, kw);
  let defaults := dict_update description_field_defaults kwargs in
  text_field [] defaults.

Definition geo_location_field (args : list pyval) (kw : gmap string pyval) : result Field :=
  kwargs ← bind_varkw (args, kw);
  let defaults := dict_update geo_location_field_defaults kwargs in
  decimal_field [] defaults.

Definition longitude_field (args : list pyval) (kw : gmap string pyval) : result Field :=
  kwargs ← bind_varkw (args, kw);
  let defaults := dict_update longitude_field_defaults kwargs in
  geo_location_field [] defaults.

Definition latitude_field (args : list pyval) (kw : gmap string pyval) : result Field :=
  kwargs ← bind_varkw (args, kw);
  let defaults := dict_update latitude_field_defaults kwargs in
  geo_location_field [] defaults.

Definition mac_address_field (args : list pyval) (kw : gmap string pyval) : result Field :=
  kwargs ← bind_varkw (args, kw);
  let defaults := dict_update mac_address_field_defaults kwargs in
  construct "MACAddressField" [] [] defaults.

Definition name_field (args : list pyval) (kw : gmap string pyval) : result Field :=
  kwargs ← bind_varkw (args, kw);
  let defaults := dict_update name_field_defaults kwargs in
  char_field [] defaults.

Definition user_field (args : list pyval) (kw : gmap string pyval) : result Field :=
  kwargs ← bind_varkw (args, kw);
  foreign_key_field [User] kwargs.

Definition user_agent_field (args : list pyval) (kw : gmap string pyval) : result Field :=
  kwargs ← bind_varkw (args, kw);
  let defaults := dict_update user_agent_field_defaults kwargs in
  char_field [] defaults.

Definition time_zone_field (args : list pyval) (kw : gmap string pyval) : result Field :=
  kwargs ← bind_varkw (args, kw);
  let defaults := dict_update time_zone_field_defaults kwargs in
  construct "TimeZoneField" [] [] defaults.

Definition phone_number_field (args : list pyval) (kw : gmap string pyval) : result Field :=
  kwargs ← bind_varkw (args, kw);
  let defaults := dict_update phone_number_field_defaults kwargs in
  construct "PhoneNumberField" [] [] defaults.

Definition email_field (args : list pyval) (kw : gmap string pyval) : result Field :=
  kwargs ← bind_varkw (args, kw);
  let defaults := dict_update email_field_defaults kwargs in
  construct "models.EmailField" [] [] defaults.

Definition instance_messaging_field (args : list pyval) (kw : gmap string pyval) : result Field :=
  kwargs ← bind_varkw (args, kw);
  let defaults := dict_update instance_messaging_field_defaults kwargs in
  url_field [] defaults.

Definition uri_field (args : list pyval) (kw : gmap string pyval) : result Field :=
  kwargs ← bind_varkw (args, kw);
  let defaults := dict_update uri_field_defaults kwargs in
  url_field [] defaults.

Definition priority_field (args : list pyval) (kw : gmap string pyval) : result Field :=
  kwargs ← bind_varkw (args, kw);
  let defaults := dict_update priority_field_defaults kwargs in
  construct "models.PositiveSmallIntegerField" [] [] defaults.
End Factories.

(** The number a value stands for in a comparison ([bool] is an [int]). *)
Definition as_float (v : pyval) : option pyfloat :=
  match v with
  | VInt z => Some (FFinite (inject_Z z))
  | VBool b => Some (FFinite (inject_Z (Z.b2z b)))
  | VFloat f => Some f
  | _ => None
  end.

Definition Qltb (a b : Q) : bool := negb (Qle_bool b a).

Definition float_lt (a b : pyfloat) : bool :=
  match a, b with
  | FNaN, _ | _, FNaN => false
  | _, FNegInf => false
  | FNegInf, _ => true
  | FPosInf, _ => false
  | FFinite _, FPosInf => true
  | FFinite x, FFinite y => Qltb x y
  end.

(** [a < b] where one side is a number: other operands are a [TypeError]. *)
Definition py_lt (a b : pyval) : result bool :=
  match as_float a, as_float b with
  | Some x, Some y => Ok (float_lt x y)
  | _, _ => Raise TypeError
  end.

Section Validators.
(** [django.utils.translation.gettext], imported as [_]. *)
Context (gettext : string → string).

Definition latitude_validator (value : pyval) : result pyval :=
  lo ← py_lt (VInt (-90)) value;
  valid ← (if lo : bool then py_lt value (VInt 90) else Ok false);
  if negb valid
  then Raise (ValidationError (gettext "latitude not in range of -90 < value < 90"))
  else Ok value.

Definition longitude_validator (value : pyval) : result pyval :=
  lo ← py_lt (VInt (-180)) value;
  valid ← (if lo : bool then py_lt value (VInt 180) else Ok false);
  if negb valid
  then Raise (ValidationError (gettext "longitude not in range of -90 < value < 90"))
  else Ok value.

(** The errors the two validators raise. *)
Definition latitude_error : exn :=
  ValidationError (gettext "latitude not in range of -90 < value < 90").
Definition longitude_error : exn :=
  ValidationError (gettext "longitude not in range of -90 < value < 90").
End Validators.

End Fields.

(** ** core_utils/models.py *)

Module Models.
Import Fields.

(** The attributes of a [VersionedModel] instance. *)
Record VersionedModel := mkVersionedModel {
  id : pyval;
  uuid : pyval;
  version : Z;
  enabled : bool;
  deleted : bool;
  creation_time : pyval;
  update_time : pyval;
  creation_user : pyval;
  update_user : pyval;
  effective_user : pyval;
  site : pyval
}.

Definition set_version (v : Z) (self : VersionedModel) : VersionedModel :=
  mkVersionedModel (id self) (uuid self) v (enabled self) (deleted self)
    (creation_time self) (update_time self) (creation_user self)
    (update_user self) (effective_user self) (site self).

Definition set_update_user (u : pyval) (self : VersionedModel) : VersionedModel :=
  mkVersionedModel (id self) (uuid self) (version self) (enabled self)
    (deleted self) (creation_time self) (update_time self) (creation_user self)
    u (effective_user self) (site self).

Definition set_effective_user (u : pyval) (self : VersionedModel) : VersionedModel :=
  mkVersionedModel (id self) (uuid self) (version self) (enabled self)
    (deleted self) (creation_time self) (update_time self) (creation_user self)
    (update_user self) u (site self).

(** The attributes of a [NamedModel] instance. *)
Record NamedModel := mkNamedModel {
  base : VersionedModel;
  name : string;
  alias : option string;
  description : option string
}.

(** [cls._meta], the nested [Meta] type and the model class they belong to. *)
Record Options := mkOptions {
  opt_db_table : pyval;
  opt_verbose_name : pyval;
  opt_verbose_name_plural : pyval
}.

Record MetaType := mkMetaType {
  meta_bases : list pyval;
  meta_attrs : gmap string pyval
}.

Record ModelClass := mkModelClass {
  cls_object : pyval;
  cls_module : string;
  cls_meta : Options;
  cls_Meta : option MetaType
}.

(** A manager: its model class and the rows of the model's table. *)
Record Manager (Row : Type) := mkManager {
  manager_model : pyval;
  manager_rows : list Row
}.
Arguments mkManager {Row} _ _.
Arguments manager_model {Row} _.
Arguments manager_rows {Row} _.

Record LogRecord := mkLogRecord {
  log_level : string;
  log_format : string;
  log_args : list string
}.

(** [str(v)] of a string or [None], as [format] renders it. *)
Definition py_str (v : option string) : string := default "None" v.

(** [v or d] for a string or [None]. *)
Definition or_else (v : option string) (d : string) : string :=
  match v with
  | Some s => if String.eqb s "" then d else s
  | None => d
  end.

(** Modelled from the spec: the persistence framework's manager lookup
    [Manager.get] is imported; it is "a single-row lookup" that fails with
    "does not exist" when no row satisfies the criteria and with "multiple rows
    matched" when several do. *)
Definition get {Row : Type} (self : Manager Row) (criteria : Row → bool)
  : result Row :=
  match List.filter criteria (manager_rows self) with
  | [] => Raise DoesNotExist
  | [row] => Ok row
  | _ :: _ :: _ => Raise MultipleObjectsReturned
  end.

Section Models.
(** [constants.SITE_LABEL], [constants.UNKNOWN], [utils.core.class_name],
    [inflection.pluralize] and [gettext] are imported. *)
Context (SITE_LABEL UNKNOWN : string).
Context (class_name : pyval → string).
Context (inflection_pluralize : string → string).
Context (gettext : string → string).

Definition verbose_class_name (class_name : string) : string :=
  let verbose_name := Inflection.underscore class_name in
  let verbose_name := Inflection.replace_char "_"%char " "%char verbose_name in
  verbose_name.

Definition pluralize (name : string) : string := inflection_pluralize name.

Definition db_table_for_class (class_name : string) : string :=
  let table_name := Inflection.underscore class_name in
  table_name.

(** The naming helpers are called with strings or [None]. *)
Definition db_table_for_app_and_class
    (args : list (option string)) (kw : gmap string (option string))
  : result string :=
  '(app_name, st) ← bind_param "app_name" None (args, kw);
  '(table_name, st) ← bind_param "table_name" None st;
  '(site_label, st) ← bind_param "site_label" None st;
  _ ← bind_done st;
  let site_label := or_else site_label SITE_LABEL in
  Ok (site_label +:+ "_" +:+ py_str app_name +:+ "_" +:+ py_str table_name).

Definition db_table
    (args : list (option string)) (kw : gmap string (option string))
  : result string :=
  '(app_name, st) ← bind_param "app_name" None (args, kw);
  '(class_name, st) ← bind_param "class_name" None st;
  '(site_label, st) ← bind_param "site_label" (Some None) st;
  _ ← bind_done st;
  match class_name with
  | Some class_name =>
      db_table_for_app_and_class
        [app_name; Some (db_table_for_class class_name); site_label] ∅
  | None => Raise TypeError
  end.

(** Attribute lookup on the type built by [type('Meta', bases, attrs)]. *)
Definition meta_getattr (meta : MetaType) (attr : string) : result pyval :=
  match meta_attrs meta !! attr with
  | Some v => Ok v
  | None => Raise AttributeError
  end.

(** [meta(meta_base_classes, app_label, **kwargs)(cls)] *)
Definition meta (meta_base_classes : pyval) (app_label : option string)
    (kwargs : gmap string pyval) (cls : ModelClass) : result ModelClass :=
  let class_name_ := class_name (cls_object cls) in
  let verbose_name := verbose_class_name class_name_ in
  let plural_name := pluralize verbose_name in
  let table_name := db_table_for_class class_name_ in
  db_table_ ← db_table_for_app_and_class [app_label; Some table_name] ∅;
  let meta_attrs :=
    dict [("__module__", VStr (cls_module cls));
          ("verbose_name", VStr (gettext verbose_name));
          ("verbose_name_plural", VStr (gettext plural_name));
          ("db_table", VStr db_table_)] in
  let meta_attrs :=
    match app_label with
    | Some label => <["app_label" := VStr label]> meta_attrs
    | None => meta_attrs
    end in
  let meta_base :=
    if is_not_None meta_base_classes
    then match meta_base_classes with
         | VTuple items => items
         | _ => [meta_base_classes]
         end
    else [VRef "object"] in
  let meta_attrs := dict_update meta_attrs kwargs in
  let meta := mkMetaType meta_base meta_attrs in
  db_table_ ← meta_getattr meta "db_table";
  verbose_name ← meta_getattr meta "verbose_name";
  verbose_name_plural ← meta_getattr meta "verbose_name_plural";
  let _meta := mkOptions db_table_ verbose_name verbose_name_plural in
  Ok (mkModelClass (cls_object cls) (cls_module cls) _meta (Some meta)).

(** [VersionedModelManager.get_or_none] *)
Definition get_or_none {Row : Type} (self : Manager Row) (criteria : Row → bool)
  : result (option Row) :=
  match get self criteria with
  | Ok row => Ok (Some row)
  | Raise DoesNotExist => Ok None
  | Raise e => Raise e
  end.

(** [NamedModelManager.named_instance], with the records it logs. *)
Definition named_instance (self : Manager NamedModel) (name_ : string)
  : result NamedModel * list LogRecord :=
  match get self (λ row, String.eqb (name row) name_) with
  | Ok row => (Ok row, [])
  | Raise DoesNotExist =>
      let record :=
        mkLogRecord "WARNING"
          "Failed to retrieve instance of type (%s) named (%s)"
          [class_name (manager_model self); name_] in
      (get self (λ row, String.eqb (name row) UNKNOWN), [record])
  | Raise e => (Raise e, [])
  end.

Definition display_name (self : NamedModel) : string :=
  match alias self with
  | Some a => if String.eqb a "" then name self else a
  | None => name self
  end.

(** Assigning to a [ForeignKey] attribute goes through the descriptor of the
    persistence framework: [None] and an instance of the target class are
    stored; any other value raises [ValueError] and the attribute keeps the
    value it had. *)
Definition assign_related (is_instance : pyval → bool) (value : pyval)
  : result pyval :=
  if is_not_None value && negb (is_instance value)
  then Raise ValueError
  else Ok value.

Section Save.
(** [isinstance(value, User)], as the descriptors of the three user
    references test it. *)
Context (is_User : pyval → bool).

(** [models.Model.save], the superclass method: it may change the instance
    it is given and may raise. *)
Context (Model_save :
  VersionedModel → list pyval → gmap string pyval →
  VersionedModel * result unit).

(** The body of [VersionedModel.save] up to the [super] call: the instance
    as the body leaves it, with the keywords handed to [Model.save] or the
    error an assignment raised. *)
Definition save_prepare (self : VersionedModel) (kwargs : gmap string pyval)
  : VersionedModel * result (gmap string pyval) :=
  let self := set_version (version self + 1) self in
  let '(update_user_, kwargs) := dict_pop "update_user" kwargs in
  let assigned :=
    if is_not_None update_user_
    then user ← assign_related is_User update_user_;
         Ok (set_update_user user self)
    else Ok self in
  match assigned with
  | Raise e => (self, Raise e)
  | Ok self =>
      let '(effective_user_, kwargs) := dict_pop "effective_user" kwargs in
      let assigned :=
        if is_not_None update_user_
        then user ← assign_related is_User effective_user_;
             Ok (set_effective_user user self)
        else Ok self in
      match assigned with
      | Raise e => (self, Raise e)
      | Ok self => (self, Ok kwargs)
      end
  end.

(** An error raised before the [super] call leaves [Model.save] uncalled. *)
Definition save (self : VersionedModel) (args : list pyval)
    (kwargs : gmap string pyval) : VersionedModel * result unit :=
  match save_prepare self kwargs with
  | (self, Ok kwargs) => Model_save self args kwargs
  | (self, Raise e) => (self, Raise e)
  end.

(** Successive [save] calls on one instance; a call that raised leaves the
    instance as the call left it. *)
Fixpoint save_each (self : VersionedModel)
    (calls : list (list pyval * gmap string pyval)) : VersionedModel :=
  match calls with
  | [] => self
  | (args, kwargs) :: rest => save_each (save self args kwargs).1 rest
  end.
End Save.
End Models.

End Models.

(** ** The catalog of field factories *)

Module Catalog.
Import Fields.

(** A factory together with its required arguments. *)
Inductive Factory :=
  | Auto
  | Boolean
  | File (upload_to : pyval)
  | Char
  | Date
  | DateTime
  | Decimal (max_digits decimal_places : pyval)
  | FloatingPoint
  | ForeignKey (to : pyval)
  | Image
  | Integer
  | IpAddress
  | ManyToMany (to db_table : pyval)
  | OneToOne (to : pyval)
  | SmallInteger
  | Text
  | Url
  | Uuid
  | Annotation
  | Description
  | GeoLocation
  | Longitude
  | Latitude
  | MacAddress
  | Name
  | UserRef
  | UserAgent
  | TimeZone
  | PhoneNumber
  | Email
  | InstanceMessaging
  | Uri
  | Priority.

Section Catalog.
Context (class_name : pyval → string) (camelize : string → string).

(** Calling a factory with its required arguments and keyword overrides. *)
Definition invoke (f : Factory) (kwargs : gmap string pyval) : result Field :=
  match f with
  | Auto => auto_field [] kwargs
  | Boolean => boolean_field [] kwargs
  | File upload_to => file_field [upload_to] kwargs
  | Char => char_field [] kwargs
  | Date => date_field [] kwargs
  | DateTime => datetime_field [] kwargs
  | Decimal max_digits decimal_places =>
      decimal_field [max_digits; decimal_places] kwargs
  | FloatingPoint => floating_point_field [] kwargs
  | ForeignKey to => foreign_key_field [to] kwargs
  | Image => image_field [] kwargs
  | Integer => integer_field [] kwargs
  | IpAddress => ip_address_field [] kwargs
  | ManyToMany to db_table =>
      many_to_many_field class_name camelize [to; db_table] kwargs
  | OneToOne to => one_to_one_field [to] kwargs
  | SmallInteger => small_integer_field [] kwargs
  | Text => text_field [] kwargs
  | Url => url_field [] kwargs
  | Uuid => uuid_field [] kwargs
  | Annotation => annotation_field [] kwargs
  | Description => description_field [] kwargs
  | GeoLocation => geo_location_field [] kwargs
  | Longitude => longitude_field [] kwargs
  | Latitude => latitude_field [] kwargs
  | MacAddress => mac_address_field [] kwargs
  | Name => name_field [] kwargs
  | UserRef => user_field [] kwargs
  | UserAgent => user_agent_field [] kwargs
  | TimeZone => time_zone_field [] kwargs
  | PhoneNumber => phone_number_field [] kwargs
  | Email => email_field [] kwargs
  | InstanceMessaging => instance_messaging_field [] kwargs
  | Uri => uri_field [] kwargs
  | Priority => priority_field [] kwargs
  end.


(** Keywords that are bound or consumed before the defaults are merged:
    the named parameters of the factory and of the factory it calls,
    and the popped [related_name]. *)
Definition reserved (f : Factory) : list string :=
  match f with
  | File _ => ["upload_to"]
  | Decimal _ _ => ["max_digits"; "decimal_places"]
  | ForeignKey _ | OneToOne _ | UserRef => ["to"]
  | ManyToMany _ _ => ["to"; "db_table"; "related_name"]
  | _ => []
  end.

(** What [decimal_field] adds to the precision it is given. *)
Definition decimal_rest : gmap string pyval :=
  dict [("default", VInt 0); ("blank", VBool false); ("null", VBool false)].

(** *** The table of defaults, as documented *)

Definition char_row : gmap string pyval :=
  dict [("max_length", VInt 1024); ("blank", VBool false);
        ("null", VBool false); ("unique", VBool false)].
Definition decimal_row (max_digits decimal_places : pyval) : gmap string pyval :=
  dict [("max_digits", max_digits); ("decimal_places", decimal_places);
        ("default", VInt 0); ("blank", VBool false); ("null", VBool false)].
Definition foreign_key_row : gmap string pyval :=
  dict [("blank", VBool false); ("db_constraint", VBool true);
        ("null", VBool false); ("on_delete", PROTECT)].
Definition text_row : gmap string pyval :=
  dict [("blank", VBool true); ("null", VBool true); ("unique", VBool false)].
Definition url_row : gmap string pyval :=
  dict [("max_length", VInt 255); ("null", VBool false); ("blank", VBool false)].
Definition geo_row : gmap string pyval :=
  decimal_row (VInt 9) (VInt 6).

(** "delegates to": the row's own entries on top of the delegate's. *)
Definition delegating (own delegate : gmap string pyval) : gmap string pyval :=
  own ∪ delegate.

Definition documented_options (f : Factory) : gmap string pyval :=
  match f with
  | Auto =>
      dict [("blank", VBool true); ("null", VBool false);
            ("primary_key", VBool true); ("unique", VBool true)]
  | Boolean =>
      dict [("blank", VBool false); ("null", VBool false);
            ("default", VBool false)]
  | File upload_to => dict [("upload_to", upload_to)]
  | Char => char_row
  | Date | DateTime =>
      dict [("auto_now", VBool false); ("auto_now_add", VBool false);
            ("blank", VBool false); ("null", VBool false)]
  | Decimal max_digits decimal_places => decimal_row max_digits decimal_places
  | FloatingPoint =>
      dict [("blank", VBool false); ("null", VBool false);
            ("default", VFloat (FFinite 0))]
  | ForeignKey _ => foreign_key_row
  | Image => ∅
  | Integer | SmallInteger =>
      dict [("default", VInt 0); ("blank", VBool false); ("null", VBool false)]
  | IpAddress => dict [("null", VBool false); ("blank", VBool false)]
  | ManyToMany to db_table =>
      dict [("db_table", db_table);
            ("db_constraint", VBool true); ("null", VBool true);
            ("blank", VBool true);
            ("related_name", VStr (camelize (class_name to) +:+ "_set"))]
  | OneToOne _ =>
      dict [("blank", VBool false); ("db_constraint", VBool true);
            ("null", VBool false); ("on_delete", PROTECT)]
  | Text => text_row
  | Url => url_row
  | Uuid =>
      dict [("unique", VBool true); ("default", uuid4);
            ("db_index", VBool true); ("editable", VBool false)]
  | Annotation | Description =>
      delegating
        (dict [("blank", VBool false); ("null", VBool false);
               ("unique", VBool false)])
        text_row
  | GeoLocation => geo_row
  | Latitude =>
      delegating
        (dict [("validators",
                VList [VRef "core_utils.fields.latitude_validator"])])
        geo_row
  | Longitude =>
      delegating
        (dict [("validators",
                VList [VRef "core_utils.fields.longitude_validator"])])
        geo_row
  | MacAddress =>
      dict [("unique", VBool true); ("null", VBool false);
            ("blank", VBool false)]
  | Name =>
      delegating
        (dict [("max_length", VInt 255); ("unique", VBool true);
               ("db_index", VBool true); ("null", VBool false);
               ("blank", VBool false)])
        char_row
  | UserRef => foreign_key_row
  | UserAgent =>
      delegating
        (dict [("null", VBool false); ("blank", VBool false);
               ("max_length", VInt 512)])
        char_row
  | TimeZone =>
      dict [("null", VBool false); ("blank", VBool false);
            ("default", VStr "America/New_York")]
  | PhoneNumber | Email => dict [("null", VBool false); ("blank", VBool false)]
  | InstanceMessaging =>
      delegating
        (dict [("null", VBool false); ("blank", VBool false);
               ("validators", VList [VURLValidator ["im"; "xmpp"]])])
        url_row
  | Uri =>
      delegating
        (dict [("null", VBool false); ("blank", VBool false);
               ("validators",
                VList [VURLValidator
                         ["im"; "xmpp"; "http"; "https"; "ftp"; "ftps";
                          "tel"; "mailto"; "urn"]])])
        url_row
  | Priority => dict [("default", VInt 0)]
  end.

End Catalog.

End Catalog.

Import Fields Catalog.

(** ** Sample data *)

Module Samples.
Import Models.

Definition alice : pyval := VRef "users.alice".
Definition bob : pyval := VRef "users.bob".

(** The users are the objects of the [users] name space. *)
Definition is_user (v : pyval) : bool :=
  match v with
  | VRef qualname => String.prefix "users." qualname
  | _ => false
  end.

(** An instance saved three times, all three users being alice. *)
Definition record : VersionedModel :=
  mkVersionedModel (VInt 7) (VStr "6f1c2d9e") 3 true false
    (VStr "2016-01-04") (VStr "2016-02-11") alice alice alice (VInt 1).

(** A superclass [save] that stores the instance and changes nothing in it. *)
Definition plain_save (self : VersionedModel) (args : list pyval)
    (kwargs : gmap string pyval) : VersionedModel * result unit :=
  (self, Ok tt).

Definition currency (code : string) : NamedModel :=
  mkNamedModel record code None None.

(** A reference table with its fallback row. *)
Definition currencies : Manager NamedModel :=
  mkManager (VRef "refdata.Currency") [currency "UNKNOWN"; currency "USD"].

End Samples.

(** ** The declarations of the abstract base classes *)

Module Schema.
Import Fields Catalog Models.

Definition Site : pyval := VRef "django.contrib.sites.models.Site".

(** The field attributes of the class body of [VersionedModel], in order. *)
Definition VersionedModel_fields : list (string * result Field) :=
  [("id", auto_field [] ∅);
   ("uuid", uuid_field [] ∅);
   ("version", integer_field [] ∅);
   ("enabled", boolean_field [] {["default" := VBool true]});
   ("deleted", boolean_field [] {["default" := VBool false]});
   ("creation_time", datetime_field [] {["auto_now_add" := VBool true]});
   ("update_time", datetime_field [] {["auto_now" := VBool true]});
   ("creation_user",
    user_field []
      {["related_name" := VStr "%(app_label)s_%(class)s_related_creation_user"]});
   ("update_user",
    user_field []
      {["related_name" := VStr "%(app_label)s_%(class)s_related_update_user"]});
   ("effective_user",
    user_field []
      {["related_name" := VStr "%(app_label)s_%(class)s_related_effective_user"]});
   ("site",
    foreign_key_field [Site]
      {["related_name" := VStr "%(app_label)s_%(class)s_related_site"]})].

(** The field attributes [NamedModel] adds, and all it has by inheritance. *)
Definition NamedModel_own_fields : list (string * result Field) :=
  [("name", name_field [] ∅);
   ("alias",
    name_field []
      (dict [("blank", VBool true); ("null", VBool true);
             ("unique", VBool false)]));
   ("description",
    description_field [] (dict [("blank", VBool true); ("null", VBool true)]))].

Definition NamedModel_fields : list (string * result Field) :=
  VersionedModel_fields ++ NamedModel_own_fields.

Definition PrioritizedModel_fields : list (string * result Field) :=
  [("priority", priority_field [] ∅)].

(** The attributes of a nested [Meta] class. *)
Record MetaClass := mkMetaClass {
  abstract : bool;
  get_latest_by : option string;
  ordering : list string
}.

Definition VersionedModel_Meta : MetaClass :=
  mkMetaClass true (Some "update_time") [].

(** [class Meta(VersionedModel.Meta)]: what it does not set is inherited. *)
Definition NamedModel_Meta : MetaClass :=
  mkMetaClass true (get_latest_by VersionedModel_Meta) ["name"].

Definition PrioritizedModel_Meta : MetaClass :=
  mkMetaClass true None [].

(** [NamedModel.__str__] *)
Definition NamedModel_str (self : NamedModel) : string := display_name self.

(** The descriptors of a class body, when every declaration succeeded. *)
Definition declared (fields : list (string * result Field))
  : option (list (string * Field)) :=
  mapM (λ nf, match nf.2 with Ok d => Some (nf.1, d) | Raise _ => None end)
    fields.

Section Functions.
Context (class_name : pyval → string) (camelize : string → string).

(** The function behind a catalog entry, and the positional arguments the
    entry carries for it. *)
Definition factory_function (f : Factory)
  : list pyval → gmap string pyval → result Field :=
  match f with
  | Auto => auto_field
  | Boolean => boolean_field
  | File _ => file_field
  | Char => char_field
  | Date => date_field
  | DateTime => datetime_field
  | Decimal _ _ => decimal_field
  | FloatingPoint => floating_point_field
  | ForeignKey _ => foreign_key_field
  | Image => image_field
  | Integer => integer_field
  | IpAddress => ip_address_field
  | ManyToMany _ _ => many_to_many_field class_name camelize
  | OneToOne _ => one_to_one_field
  | SmallInteger => small_integer_field
  | Text => text_field
  | Url => url_field
  | Uuid => uuid_field
  | Annotation => annotation_field
  | Description => description_field
  | GeoLocation => geo_location_field
  | Longitude => longitude_field
  | Latitude => latitude_field
  | MacAddress => mac_address_field
  | Name => name_field
  | UserRef => user_field
  | UserAgent => user_agent_field
  | TimeZone => time_zone_field
  | PhoneNumber => phone_number_field
  | Email => email_field
  | InstanceMessaging => instance_messaging_field
  | Uri => uri_field
  | Priority => priority_field
  end.

Definition required_arguments (f : Factory) : list pyval :=
  match f with
  | File upload_to => [upload_to]
  | Decimal max_digits decimal_places => [max_digits; decimal_places]
  | ForeignKey to | OneToOne to => [to]
  | ManyToMany to db_table => [to; db_table]
  | _ => []
  end.
End Functions.

End Schema.

(** * Properties *)

Import Fields Catalog.

(** ** Calls *)

Section CallLemmas.
Context {A : Type}.

Lemma bind_param_positional name dflt (a : A) rest (kw : gmap string A) :
  kw !! name = None →
  bind_param name dflt (a :: rest, kw) = Ok (a, (rest, kw)).
Proof. intros H. unfold bind_param; simpl. by rewrite H. Qed.

Lemma bind_param_keyword name dflt (v : A) (kw : gmap string A) :
  kw !! name = Some v →
  bind_param name dflt ([], kw) = Ok (v, ([], delete name kw)).
Proof. intros H. unfold bind_param; simpl. by rewrite H. Qed.

Lemma bind_param_missing name (kw : gmap string A) :
  kw !! name = None → bind_param name None ([], kw) = Raise TypeError.
Proof. intros H. unfold bind_param; simpl. by rewrite H. Qed.
End CallLemmas.

Lemma construct_named_fresh cls args k v star :
  star !! k = None →
  construct cls args [(k, v)] star = Ok (mkField cls args (<[k := v]> star)).
Proof.
  intros H. unfold construct; simpl.
  rewrite bool_decide_eq_true_2; [done | by apply not_elem_of_dom].
Qed.

(** ** Field factories *)

(** Called by keyword, [decimal_field] keeps the precision it was given and
    adds its three defaults underneath. *)
Lemma decimal_field_keywords m a b :
  m !! "max_digits" = Some a → m !! "decimal_places" = Some b →
  decimal_field [] m = Ok (mkField "models.DecimalField" [] (m ∪ decimal_rest)).
Proof.
  intros Ha Hb. unfold decimal_field.
  rewrite (bind_param_keyword _ _ a) by done. simpl.
  rewrite (bind_param_keyword _ _ b) by (by rewrite lookup_delete_ne).
  simpl. unfold construct; simpl. do 2 f_equal.
  unfold dict_update, decimal_field_defaults, decimal_rest, dict. simpl.
  apply map_eq; intros k.
  rewrite !lookup_union, !lookup_delete.
  destruct (decide ("decimal_places" = k)) as [<-|]; [rewrite Hb; reflexivity|].
  destruct (decide ("max_digits" = k)) as [<-|]; [rewrite Ha; reflexivity|].
  rewrite (lookup_insert_ne _ "decimal_places") by done.
  rewrite (lookup_insert_ne _ "max_digits") by done.
  reflexivity.
Qed.

(** A positional precision and the same precision by keyword clash. *)
Lemma decimal_field_duplicate_precision md dp v :
  decimal_field [md; dp] {["max_digits" := v]} = Raise TypeError.
Proof. reflexivity. Qed.

Ltac run_factory :=
  cbv beta iota zeta delta
    [invoke annotation_field description_field name_field user_agent_field
     instance_messaging_field uri_field text_field char_field url_field
     geo_location_field longitude_field latitude_field user_field
     mbind result_bind bind_varkw construct forallb foldr dict_update fst snd].

Ltac merged cls args opts :=
  exists cls, args, opts; split; [reflexivity |];
  first [ reflexivity
        | run_factory; rewrite <- (assoc_L (∪)); reflexivity ].

Ltac geo_merged own :=
  exists "models.DecimalField", (@nil pyval),
    ((own ∪ geo_location_field_defaults) ∪ decimal_rest);
  split; [reflexivity |]; run_factory;
  let a := fresh "a" in let b := fresh "b" in
  let Ha := fresh "Ha" in let Hb := fresh "Hb" in
  match goal with
  | |- decimal_field [] ?m = _ =>
      assert (is_Some (m !! "max_digits")) as [a Ha]
        by (apply lookup_union_is_Some; right; by eexists);
      assert (is_Some (m !! "decimal_places")) as [b Hb]
        by (apply lookup_union_is_Some; right; by eexists)
  end;
  rewrite (decimal_field_keywords _ a b) by done;
  by rewrite <- !(assoc_L (∪)).

Section FactoryProperties.
Context (class_name : pyval → string) (camelize : string → string).

(** Overrides that stay clear of the reserved keywords are laid over the
    options of the plain call; class and positional arguments are those of
    the plain call. *)
Lemma invoke_merge f kw :
  Forall (λ k, kw !! k = None) (reserved f) →
  ∃ cls args opts,
    invoke class_name camelize f ∅ = Ok (mkField cls args opts)
    ∧ invoke class_name camelize f kw = Ok (mkField cls args (kw ∪ opts)).
Proof.
  intros Hres. destruct f; simpl in Hres.
  - merged "models.AutoField" (@nil pyval) auto_field_defaults.
  - merged "models.BooleanField" (@nil pyval) boolean_field_defaults.
  - apply Forall_cons_1 in Hres as [Hu _].
    exists "models.FileField", [], (<["upload_to" := upload_to]> ∅).
    split; [reflexivity|].
    unfold invoke, file_field. rewrite bind_param_positional by done. simpl.
    rewrite construct_named_fresh by done. do 2 f_equal.
    apply map_eq; intros k. rewrite lookup_union.
    destruct (decide ("upload_to" = k)) as [<-|].
    + rewrite !lookup_insert_eq, Hu. reflexivity.
    + rewrite !lookup_insert_ne by done. rewrite lookup_empty.
      by destruct (kw !! k).
  - merged "models.CharField" (@nil pyval) char_field_defaults.
  - merged "models.DateField" (@nil pyval) date_field_defaults.
  - merged "models.DateTimeField" (@nil pyval) datetime_field_defaults.
  - apply Forall_cons_1 in Hres as [Hm Hres].
    apply Forall_cons_1 in Hres as [Hd _].
    exists "models.DecimalField", [],
      (decimal_field_defaults max_digits decimal_places).
    split; [reflexivity|].
    unfold invoke, decimal_field. rewrite bind_param_positional by done. simpl.
    rewrite bind_param_positional by done. reflexivity.
  - merged "models.FloatField" (@nil pyval) floating_point_field_defaults.
  - apply Forall_cons_1 in Hres as [Ht _].
    exists "models.ForeignKey", [to], foreign_key_field_defaults.
    split; [reflexivity|].
    unfold invoke, foreign_key_field. rewrite bind_param_positional by done.
    reflexivity.
  - exists "models.ImageField", [], ∅. split; [reflexivity|].
    rewrite (right_id_L ∅ (∪)). reflexivity.
  - merged "models.IntegerField" (@nil pyval) integer_field_defaults.
  - merged "models.GenericIPAddressField" (@nil pyval) ip_address_field_defaults.
  - apply Forall_cons_1 in Hres as [Ht Hres].
    apply Forall_cons_1 in Hres as [Hd Hres].
    apply Forall_cons_1 in Hres as [Hr _].
    exists "models.ManyToManyField", [to],
      (<["db_table" := db_table]>
         (<["related_name" := VStr (camelize (class_name to) +:+ "_set")]>
            many_to_many_field_defaults)).
    split; [reflexivity|].
    unfold invoke, many_to_many_field.
    rewrite bind_param_positional by done. simpl.
    rewrite bind_param_positional by done. simpl.
    unfold dict_pop. rewrite Hr, delete_id by done. simpl.
    unfold construct, dict_update. simpl.
    rewrite !bool_decide_eq_true_2; simpl.
    + do 2 f_equal. apply map_eq; intros k.
      destruct (decide ("db_table" = k)) as [<-|].
      { rewrite lookup_insert_eq, lookup_union, Hd, lookup_insert_eq. done. }
      destruct (decide ("related_name" = k)) as [<-|].
      { rewrite lookup_insert_ne, lookup_insert_eq by done.
        rewrite lookup_union, Hr, lookup_insert_ne, lookup_insert_eq by done.
        done. }
      rewrite !lookup_insert_ne by done.
      rewrite !lookup_union, !lookup_insert_ne by done. done.
    + apply not_elem_of_dom. rewrite lookup_union, Hr. reflexivity.
    + apply not_elem_of_dom. rewrite lookup_union, Hd. reflexivity.
  - apply Forall_cons_1 in Hres as [Ht _].
    exists "models.OneToOneField", [to], one_to_one_field_defaults.
    split; [reflexivity|].
    unfold invoke, one_to_one_field. rewrite bind_param_positional by done.
    reflexivity.
  - merged "models.SmallIntegerField" (@nil pyval) small_integer_field_defaults.
  - merged "models.TextField" (@nil pyval) text_field_defaults.
  - merged "models.URLField" (@nil pyval) url_field_defaults.
  - merged "models.UUIDField" (@nil pyval) uuid_field_defaults.
  - merged "models.TextField" (@nil pyval)
      (annotation_field_defaults ∪ text_field_defaults).
  - merged "models.TextField" (@nil pyval)
      (description_field_defaults ∪ text_field_defaults).
  - exists "models.DecimalField", [], (geo_location_field_defaults ∪ decimal_rest).
    split; [reflexivity|]. run_factory.
    assert (is_Some ((kw ∪ geo_location_field_defaults) !! "max_digits"))
      as [a Ha] by (apply lookup_union_is_Some; right; by eexists).
    assert (is_Some ((kw ∪ geo_location_field_defaults) !! "decimal_places"))
      as [b Hb] by (apply lookup_union_is_Some; right; by eexists).
    rewrite (decimal_field_keywords _ a b) by done.
    by rewrite <- (assoc_L (∪)).
  - geo_merged longitude_field_defaults.
  - geo_merged latitude_field_defaults.
  - merged "MACAddressField" (@nil pyval) mac_address_field_defaults.
  - merged "models.CharField" (@nil pyval)
      (name_field_defaults ∪ char_field_defaults).
  - apply Forall_cons_1 in Hres as [Ht _].
    exists "models.ForeignKey", [User], foreign_key_field_defaults.
    split; [reflexivity|].
    unfold invoke, user_field, foreign_key_field. simpl.
    rewrite bind_param_positional by done.
    reflexivity.
  - merged "models.CharField" (@nil pyval)
      (user_agent_field_defaults ∪ char_field_defaults).
  - merged "TimeZoneField" (@nil pyval) time_zone_field_defaults.
  - merged "PhoneNumberField" (@nil pyval) phone_number_field_defaults.
  - merged "models.EmailField" (@nil pyval) email_field_defaults.
  - merged "models.URLField" (@nil pyval)
      (instance_messaging_field_defaults ∪ url_field_defaults).
  - merged "models.URLField" (@nil pyval)
      (uri_field_defaults ∪ url_field_defaults).
  - merged "models.PositiveSmallIntegerField" (@nil pyval) priority_field_defaults.
Qed.



(** C5: every factory of the catalog, called with its required arguments and
    no keyword override, returns a descriptor whose options are exactly the
    documented defaults of its row of the table. *)
Theorem factory_defaults_as_documented f :
  ∃ d, invoke class_name camelize f ∅ = Ok d
       ∧ field_options d = documented_options class_name camelize f.
Proof. destruct f; eexists; (split; [reflexivity | reflexivity]). Qed.

End FactoryProperties.


Example char_field_max_length_50 :
  ∃ d, char_field [] {["max_length" := VInt 50]} = Ok d
    ∧ field_options d !! "max_length" = Some (VInt 50)
    ∧ field_options d !! "blank" = Some (VBool false)
    ∧ field_options d !! "null" = Some (VBool false)
    ∧ field_options d !! "unique" = Some (VBool false).
Proof. eexists. repeat split; reflexivity. Qed.

(** ** Range validators *)

Lemma Qltb_true a b : Qltb a b = true ↔ (a < b)%Q.
Proof.
  unfold Qltb. rewrite negb_true_iff. split.
  - intros H. apply Qnot_le_lt. intros Hle. apply Qle_bool_iff in Hle. congruence.
  - intros H. destruct (Qle_bool b a) eqn:E; [|done].
    apply Qle_bool_iff in E. by apply Qlt_not_le in H.
Qed.

Lemma Qltb_false a b : Qltb a b = false ↔ (b <= a)%Q.
Proof. unfold Qltb. rewrite negb_false_iff. apply Qle_bool_iff. Qed.

Section ValidatorProperties.
Context (gettext : string → string).

Lemma latitude_validator_finite v q :
  as_float v = Some (FFinite q) →
  latitude_validator gettext v =
    if Qltb (inject_Z (-90)) q && Qltb q (inject_Z 90) then Ok v
    else Raise (latitude_error gettext).
Proof.
  intros Hv. unfold latitude_validator, py_lt. rewrite Hv. simpl.
  destruct (Qltb _ q); simpl; [|done]. by destruct (Qltb q _).
Qed.

Lemma longitude_validator_finite v q :
  as_float v = Some (FFinite q) →
  longitude_validator gettext v =
    if Qltb (inject_Z (-180)) q && Qltb q (inject_Z 180) then Ok v
    else Raise (longitude_error gettext).
Proof.
  intros Hv. unfold longitude_validator, py_lt. rewrite Hv. simpl.
  destruct (Qltb _ q); simpl; [|done]. by destruct (Qltb q _).
Qed.

Lemma open_range_check lo hi q :
  ((lo < q ∧ q < hi)%Q → Qltb lo q && Qltb q hi = true)
  ∧ ((q <= lo ∨ hi <= q)%Q → Qltb lo q && Qltb q hi = false).
Proof.
  split.
  - intros [H1 H2]. apply Qltb_true in H1, H2. by rewrite H1, H2.
  - intros [H | H]; apply Qltb_false in H; rewrite H; [done|].
    apply andb_false_r.
Qed.

(** C7: on a number strictly inside the open range a validator returns its
    argument; on a number at or beyond a bound, the infinities included, it
    raises the validation error. Latitude: -90 and 90; longitude: -180 and
    180. The values named by the claim follow. *)
Theorem validators_enforce_open_range :
  (∀ v q, as_float v = Some (FFinite q) →
     ((inject_Z (-90) < q ∧ q < inject_Z 90)%Q →
        latitude_validator gettext v = Ok v)
     ∧ ((q <= inject_Z (-90) ∨ inject_Z 90 <= q)%Q →
        latitude_validator gettext v = Raise (latitude_error gettext))
     ∧ ((inject_Z (-180) < q ∧ q < inject_Z 180)%Q →
        longitude_validator gettext v = Ok v)
     ∧ ((q <= inject_Z (-180) ∨ inject_Z 180 <= q)%Q →
        longitude_validator gettext v = Raise (longitude_error gettext)))
  ∧ (∀ v, as_float v = Some FPosInf ∨ as_float v = Some FNegInf →
       latitude_validator gettext v = Raise (latitude_error gettext)
       ∧ longitude_validator gettext v = Raise (longitude_error gettext))
  ∧ latitude_validator gettext (VInt 45) = Ok (VInt 45)
  ∧ latitude_validator gettext (VFloat (FFinite (89999 # 1000)))
    = Ok (VFloat (FFinite (89999 # 1000)))
  ∧ latitude_validator gettext (VInt 90) = Raise (latitude_error gettext)
  ∧ latitude_validator gettext (VInt (-90)) = Raise (latitude_error gettext)
  ∧ longitude_validator gettext (VInt 0) = Ok (VInt 0)
  ∧ longitude_validator gettext (VInt 180) = Raise (longitude_error gettext)
  ∧ longitude_validator gettext (VInt (-180)) = Raise (longitude_error gettext).
Proof.
  split; [|split; [|repeat split; reflexivity]].
  - intros v q Hv.
    rewrite (latitude_validator_finite v q Hv),
      (longitude_validator_finite v q Hv).
    destruct (open_range_check (inject_Z (-90)) (inject_Z 90) q) as [Hin Hout].
    destruct (open_range_check (inject_Z (-180)) (inject_Z 180) q)
      as [Hin' Hout'].
    repeat split; intros H.
    + by rewrite Hin.
    + by rewrite Hout.
    + by rewrite Hin'.
    + by rewrite Hout'.
  - intros v [Hv | Hv];
      unfold latitude_validator, longitude_validator, py_lt;
      rewrite Hv; split; reflexivity.
Qed.
End ValidatorProperties.

(** ** Naming helpers and the [meta] decorator *)

Import Models.

(** C10: the naming helpers on the class name "OrderItem". *)
Theorem naming_helpers_compose (SITE_LABEL : string) :
  verbose_class_name "OrderItem" = "order item"
  ∧ db_table_for_class "OrderItem" = "order_item"
  ∧ db_table SITE_LABEL [Some "billing"; Some "OrderItem"; Some "acme"] ∅
    = Ok "acme_billing_order_item"
  ∧ db_table SITE_LABEL [Some "billing"; Some "OrderItem"] ∅
    = Ok (SITE_LABEL +:+ "_billing_order_item").
Proof. repeat split; reflexivity. Qed.

(** With all three arguments, a missing or empty site label is replaced by
    [SITE_LABEL]. *)
Lemma db_table_for_app_and_class_default (SITE_LABEL : string) app_name table_name :
  db_table_for_app_and_class SITE_LABEL [app_name; table_name; None] ∅
  = Ok (SITE_LABEL +:+ "_" +:+ py_str app_name +:+ "_" +:+ py_str table_name).
Proof. reflexivity. Qed.

(** C3: [site_label] has no default in the signature: a call with an app name
    and a table name only raises [TypeError], and so does every application of
    the [meta] decorator, whose call passes two arguments. *)
Theorem db_table_for_app_and_class_needs_site_label (SITE_LABEL : string) :
  (∀ app_name table_name,
     db_table_for_app_and_class SITE_LABEL [app_name; table_name] ∅
     = Raise TypeError)
  ∧ (∀ class_name pluralize gettext meta_base_classes app_label kwargs cls,
       meta SITE_LABEL class_name pluralize gettext
         meta_base_classes app_label kwargs cls
       = Raise TypeError).
Proof. split; reflexivity. Qed.

(** ** Managers *)

Lemma filter_none {A} (f : A → bool) (l : list A) :
  (∀ x, x ∈ l → f x = false) → List.filter f l = [].
Proof.
  induction l as [|a l IH]; intros H; [done|]. simpl.
  rewrite (H a) by left. apply IH. intros x Hx. apply H. by right.
Qed.

(** Names are unique in the table: filtering by a row's name gives the row. *)
Lemma filter_by_unique_name (rows : list NamedModel) (row : NamedModel) :
  NoDup (name <$> rows) → row ∈ rows →
  List.filter (λ r, String.eqb (name r) (name row)) rows = [row].
Proof.
  induction rows as [|r rows IH]; intros Hnd Hin.
  - by apply elem_of_nil in Hin.
  - rewrite fmap_cons in Hnd. apply NoDup_cons in Hnd as [Hfresh Hnd]. simpl.
    apply elem_of_cons in Hin as [-> | Hin].
    + rewrite String.eqb_refl. f_equal. apply filter_none.
      intros x Hx. apply String.eqb_neq. intros Heq. apply Hfresh.
      rewrite <- Heq. by apply list_elem_of_fmap_2.
    + assert (name r ≠ name row) as Hne.
      { intros Heq. apply Hfresh. rewrite Heq. by apply list_elem_of_fmap_2. }
      apply String.eqb_neq in Hne. rewrite Hne. by apply IH.
Qed.

Lemma get_unique_name (self : Manager NamedModel) row :
  NoDup (name <$> manager_rows self) → row ∈ manager_rows self →
  get self (λ r, String.eqb (name r) (name row)) = Ok row.
Proof. intros Hnd Hin. unfold get. by rewrite filter_by_unique_name. Qed.

Lemma get_no_match {Row} (self : Manager Row) criteria :
  (∀ r, r ∈ manager_rows self → criteria r = false) →
  get self criteria = Raise DoesNotExist.
Proof. intros H. unfold get. by rewrite filter_none. Qed.

Section ManagerProperties.
Context (UNKNOWN : string) (class_name : pyval → string).

(** C8: in a table whose names are unique (the [name] column is declared
    unique), [named_instance] returns the row of the requested name when
    there is one, logging nothing; when there is none it logs one warning
    with the model type and the requested name and returns the row named
    [UNKNOWN]; when that row is missing too, it raises [DoesNotExist]. *)
Theorem named_instance_lookup (self : Manager NamedModel) (n : string) :
  NoDup (name <$> manager_rows self) →
  (∀ row, row ∈ manager_rows self → name row = n →
      named_instance UNKNOWN class_name self n = (Ok row, []))
  ∧ ((∀ row, row ∈ manager_rows self → name row ≠ n) →
       (named_instance UNKNOWN class_name self n).2 =
         [mkLogRecord "WARNING"
            "Failed to retrieve instance of type (%s) named (%s)"
            [class_name (manager_model self); n]]
       ∧ (∀ u, u ∈ manager_rows self → name u = UNKNOWN →
            (named_instance UNKNOWN class_name self n).1 = Ok u)
       ∧ ((∀ u, u ∈ manager_rows self → name u ≠ UNKNOWN) →
            (named_instance UNKNOWN class_name self n).1 = Raise DoesNotExist)).
Proof.
  intros Hnd. split.
  - intros row Hin <-. unfold named_instance. by rewrite get_unique_name.
  - intros Hmiss. unfold named_instance.
    rewrite (get_no_match self (λ r, String.eqb (name r) n))
      by (intros r Hr; by apply String.eqb_neq, Hmiss).
    simpl. split; [done|]. split.
    + intros u Hin <-. by apply get_unique_name.
    + intros Hno. apply get_no_match. intros r Hr.
      by apply String.eqb_neq, Hno.
Qed.

(** C9: [get_or_none] returns the matching row when exactly one row meets
    the criteria, [None] when no row does, and lets
    [MultipleObjectsReturned] through when two or more do. *)
Theorem get_or_none_outcomes {Row : Type}
    (self : Manager Row) (criteria : Row → bool) :
  (length (List.filter criteria (manager_rows self)) = 1 →
     ∃ row, row ∈ manager_rows self ∧ criteria row = true
            ∧ get_or_none self criteria = Ok (Some row))
  ∧ ((∀ row, row ∈ manager_rows self → criteria row = false) →
       get_or_none self criteria = Ok None)
  ∧ (2 ≤ length (List.filter criteria (manager_rows self)) →
       get_or_none self criteria = Raise MultipleObjectsReturned).
Proof.
  unfold get_or_none, get. repeat split.
  - intros Hlen.
    destruct (List.filter criteria (manager_rows self)) as [|row [|]] eqn:E;
      try discriminate.
    exists row.
    assert (List.In row (List.filter criteria (manager_rows self))) as Hin
      by (rewrite E; by left).
    apply filter_In in Hin as [Hin Hc].
    split; [by apply list_elem_of_In|]. done.
  - intros Hnone. by rewrite filter_none.
  - intros Hlen.
    destruct (List.filter criteria (manager_rows self)) as [|row [|]];
      simpl in Hlen; try lia. done.
Qed.
End ManagerProperties.

(** A name that is not in the sample table falls back to its UNKNOWN row. *)
Lemma named_instance_lookup_missing :
  (named_instance "UNKNOWN" (λ _, "Currency") Samples.currencies "EUR").1
  = Ok (Samples.currency "UNKNOWN").
Proof.
  assert (NoDup (name <$> manager_rows Samples.currencies)) as Hnd
    by (apply (bool_decide_unpack _); vm_compute; exact I).
  destruct (named_instance_lookup "UNKNOWN" (λ _, "Currency")
              Samples.currencies "EUR" Hnd) as [_ Hmiss].
  destruct Hmiss as (_ & Hfallback & _).
  - intros row Hin.
    apply elem_of_cons in Hin as [-> | Hin]; [done|].
    apply elem_of_cons in Hin as [-> | Hin]; [done|].
    by apply elem_of_nil in Hin.
  - apply Hfallback; [left | reflexivity].
Defined.

(** ** [VersionedModel.save] *)

Ltac save_cases :=
  repeat match goal with
         | |- context [is_not_None ?v] => destruct (is_not_None v) eqn:?; simpl
         | |- context [negb (?p ?v)] => destruct (p v) eqn:?; simpl
         end.

Lemma save_prepare_version is_User self kwargs :
  version (save_prepare is_User self kwargs).1 = (version self + 1)%Z.
Proof.
  unfold save_prepare, dict_pop, assign_related. simpl.
  save_cases; reflexivity.
Qed.

(** C1: a call that passes [effective_user] alone leaves the instance's
    effective user as it was: the assignment is guarded by [update_user]. The
    keyword is still consumed before the superclass is called. *)
Theorem save_effective_user_alone_is_dropped is_User self u :
  effective_user (save_prepare is_User self {["effective_user" := u]}).1
  = effective_user self
  ∧ (save_prepare is_User self {["effective_user" := u]}).2 = Ok ∅.
Proof. split; reflexivity. Qed.

(** [update_user=None] is a supplied keyword, and the effective user is kept. *)
Lemma save_update_user_None_keeps_effective_user :
  ¬ (∀ self (kwargs : gmap string pyval) u,
       kwargs !! "update_user" = Some u →
       kwargs !! "effective_user" = None →
       effective_user (save_prepare Samples.is_user self kwargs).1 = VNone).
Proof.
  intros H.
  specialize (H Samples.record {["update_user" := VNone]} VNone eq_refl eq_refl).
  discriminate H.
Qed.

(** C2: when [update_user] is passed with a user (a value other than [None]
    that the reference accepts) and [effective_user] is not passed, no
    assignment raises, and the instance handed to the superclass has the
    effective user [None] and the update user passed. *)
Theorem save_update_user_clears_effective_user
    is_User self (kwargs : gmap string pyval) u :
  kwargs !! "update_user" = Some u → u ≠ VNone → is_User u = true →
  kwargs !! "effective_user" = None →
  effective_user (save_prepare is_User self kwargs).1 = VNone
  ∧ update_user (save_prepare is_User self kwargs).1 = u
  ∧ (save_prepare is_User self kwargs).2
    = Ok (delete "effective_user" (delete "update_user" kwargs)).
Proof.
  intros Hu Hne Huser He. unfold save_prepare, dict_pop, assign_related.
  rewrite Hu, lookup_delete_ne, He by done. simpl.
  assert (is_not_None u = true) as -> by (by destruct u).
  rewrite Huser. done.
Qed.

Lemma save_update_user_clears_effective_user_bob :
  effective_user
    (save_prepare Samples.is_user Samples.record
       {["update_user" := Samples.bob]}).1 = VNone
  ∧ update_user
      (save_prepare Samples.is_user Samples.record
         {["update_user" := Samples.bob]}).1
    = Samples.bob
  ∧ (save_prepare Samples.is_user Samples.record
       {["update_user" := Samples.bob]}).2
    = Ok (delete "effective_user"
            (delete "update_user" {["update_user" := Samples.bob]})).
Proof.
  apply (save_update_user_clears_effective_user Samples.is_user
           Samples.record {["update_user" := Samples.bob]} Samples.bob).
  - reflexivity.
  - discriminate.
  - reflexivity.
  - reflexivity.
Defined.

(** C4: whatever the arguments, [save] leaves the version counter one above
    what it was (the superclass [save] does not write the counter), so a
    sequence of calls adds its length; the counter's field starts at 0. *)
Theorem save_increments_version
    (is_User : pyval → bool)
    (Model_save : VersionedModel → list pyval → gmap string pyval →
                  VersionedModel * result unit) :
  (∀ self args kwargs, version (Model_save self args kwargs).1 = version self) →
  (∀ self args kwargs,
     version (save is_User Model_save self args kwargs).1
     = (version self + 1)%Z)
  ∧ (∀ self calls,
       version (save_each is_User Model_save self calls)
       = (version self + Z.of_nat (length calls))%Z)
  ∧ (∃ f, integer_field [] ∅ = Ok f
          ∧ field_options f !! "default" = Some (VInt 0)).
Proof.
  intros Hsuper.
  assert (Hsave : ∀ self args kwargs,
             version (save is_User Model_save self args kwargs).1
             = (version self + 1)%Z).
  { intros self args kwargs. unfold save.
    pose proof (save_prepare_version is_User self kwargs) as Hv.
    destruct (save_prepare is_User self kwargs) as [self' [kwargs'|e]];
      simpl in Hv; [by rewrite Hsuper | done]. }
  split; [exact Hsave|]. split.
  - intros self calls. revert self.
    induction calls as [|[args kwargs] calls IH]; intros self; simpl.
    + lia.
    + rewrite IH, Hsave. lia.
  - eexists. split; reflexivity.
Qed.

Lemma save_increments_version_plain :
  (∀ self args kwargs,
     version (save Samples.is_user Samples.plain_save self args kwargs).1
     = (version self + 1)%Z)
  ∧ (∀ self calls,
       version (save_each Samples.is_user Samples.plain_save self calls)
       = (version self + Z.of_nat (length calls))%Z)
  ∧ (∃ f, integer_field [] ∅ = Ok f
          ∧ field_options f !! "default" = Some (VInt 0)).
Proof.
  apply (save_increments_version Samples.is_user Samples.plain_save).
  intros self args kwargs. reflexivity.
Defined.

(** * Further properties *)

Import Schema.

(** ** Calling the factories *)

Section FactoryCalls.
Context (class_name : pyval → string) (camelize : string → string).

Lemma invoke_factory_function f kw :
  invoke class_name camelize f kw
  = factory_function class_name camelize f (required_arguments f) kw.
Proof. by destruct f. Qed.

(** X1: no factory takes a positional argument beyond its required ones:
    the call raises [TypeError], whatever the keywords. *)
Theorem surplus_positional_argument_rejected f a extra kw :
  factory_function class_name camelize f
    (required_arguments f ++ a :: extra) kw
  = Raise TypeError.
Proof.
  destruct f; try reflexivity; simpl.
  - unfold file_field, bind_param; simpl. by destruct (kw !! "upload_to").
  - unfold decimal_field, bind_param; simpl.
    destruct (kw !! "max_digits"); [done|]. simpl.
    by destruct (kw !! "decimal_places").
  - unfold foreign_key_field, bind_param; simpl. by destruct (kw !! "to").
  - unfold many_to_many_field, bind_param; simpl.
    destruct (kw !! "to"); [done|]. simpl.
    by destruct (kw !! "db_table").
  - unfold one_to_one_field, bind_param; simpl. by destruct (kw !! "to").
Qed.

(** X2: a factory called with one of its required arguments given neither
    by position nor by keyword raises [TypeError], whatever else is passed:
    the upload destination, either part of the precision, the target entity,
    the join table. *)
Theorem missing_required_argument_rejected (kw : gmap string pyval) :
  (kw !! "upload_to" = None → file_field [] kw = Raise TypeError)
  ∧ (kw !! "max_digits" = None → decimal_field [] kw = Raise TypeError)
  ∧ (kw !! "decimal_places" = None →
       decimal_field [] kw = Raise TypeError
       ∧ ∀ max_digits, decimal_field [max_digits] kw = Raise TypeError)
  ∧ (kw !! "to" = None → foreign_key_field [] kw = Raise TypeError)
  ∧ (kw !! "to" = None → one_to_one_field [] kw = Raise TypeError)
  ∧ (kw !! "to" = None →
       many_to_many_field class_name camelize [] kw = Raise TypeError)
  ∧ (kw !! "db_table" = None →
       many_to_many_field class_name camelize [] kw = Raise TypeError
       ∧ ∀ to, many_to_many_field class_name camelize [to] kw
               = Raise TypeError).
Proof.
  split; [|split; [|split; [|split; [|split; [|split]]]]].
  - intros H. unfold file_field. by rewrite bind_param_missing.
  - intros H. unfold decimal_field. by rewrite bind_param_missing.
  - intros H. split.
    + unfold decimal_field.
      destruct (kw !! "max_digits") as [v|] eqn:Hm.
      * rewrite (bind_param_keyword _ _ v) by done. simpl.
        by rewrite bind_param_missing by (by rewrite lookup_delete_ne).
      * by rewrite bind_param_missing.
    + intros md. unfold decimal_field.
      destruct (kw !! "max_digits") as [v|] eqn:Hm.
      * unfold bind_param; simpl. by rewrite Hm.
      * rewrite bind_param_positional by done. simpl.
        by rewrite bind_param_missing.
  - intros H. unfold foreign_key_field. by rewrite bind_param_missing.
  - intros H. unfold one_to_one_field. by rewrite bind_param_missing.
  - intros H. unfold many_to_many_field. by rewrite bind_param_missing.
  - intros H. split.
    + unfold many_to_many_field.
      destruct (kw !! "to") as [v|] eqn:Ht.
      * rewrite (bind_param_keyword _ _ v) by done. simpl.
        by rewrite bind_param_missing by (by rewrite lookup_delete_ne).
      * by rewrite bind_param_missing.
    + intros to. unfold many_to_many_field.
      destruct (kw !! "to") as [v|] eqn:Ht.
      * unfold bind_param; simpl. by rewrite Ht.
      * rewrite bind_param_positional by done. simpl.
        by rewrite bind_param_missing.
Qed.

(** X3: a keyword named like a parameter that the call already fills
    positionally raises [TypeError]; for [user_field] that is [to], which the
    factory itself fills with the user class. *)
Theorem parameter_given_twice_rejected f (kw : gmap string pyval) k :
  k ∈ reserved f → k ≠ "related_name" → is_Some (kw !! k) →
  invoke class_name camelize f kw = Raise TypeError.
Proof.
  intros Hk Hne [v Hv].
  destruct f; simpl in Hk;
    repeat (apply elem_of_cons in Hk as [-> | Hk]);
    try (by apply elem_of_nil in Hk); try done; simpl.
  - unfold file_field, bind_param; simpl. by rewrite Hv.
  - unfold decimal_field, bind_param; simpl. by rewrite Hv.
  - unfold decimal_field, bind_param; simpl.
    destruct (kw !! "max_digits"); [done|]. simpl. by rewrite Hv.
  - unfold foreign_key_field, bind_param; simpl. by rewrite Hv.
  - unfold many_to_many_field, bind_param; simpl. by rewrite Hv.
  - unfold many_to_many_field, bind_param; simpl.
    destruct (kw !! "to"); [done|]. simpl. by rewrite Hv.
  - unfold one_to_one_field, bind_param; simpl. by rewrite Hv.
  - unfold user_field, foreign_key_field, bind_param; simpl. by rewrite Hv.
Qed.

(** X4: keywords that are not parameters are never checked or dropped: each
    one reaches the descriptor with the caller's value, also when the factory
    has no default of that name, and the descriptor has no option besides the
    caller's keywords and the options of the plain call. *)
Theorem keywords_pass_through f (kw : gmap string pyval) :
  Forall (λ k, kw !! k = None) (reserved f) →
  ∃ d0 d,
    invoke class_name camelize f ∅ = Ok d0
    ∧ invoke class_name camelize f kw = Ok d
    ∧ (∀ k v, kw !! k = Some v → field_options d !! k = Some v)
    ∧ dom (field_options d) = dom kw ∪ dom (field_options d0).
Proof.
  intros Hres.
  destruct (invoke_merge class_name camelize f kw Hres)
    as (cls & args & opts & H0 & H1).
  exists (mkField cls args opts), (mkField cls args (kw ∪ opts)).
  split; [done|]. split; [done|]. simpl. split.
  - intros k v Hk. by apply lookup_union_Some_l.
  - apply dom_union_L.
Qed.

(** X5: the reverse name of a many-to-many field is the caller's
    [related_name] when that is a non-empty string; when it is absent, [None]
    or empty it is the camelized class name of the target followed by
    [_set]. The join table is the one passed, the target the only positional
    argument. *)
Theorem many_to_many_related_name to db_table (kw : gmap string pyval) :
  kw !! "to" = None → kw !! "db_table" = None →
  ∃ d,
    many_to_many_field class_name camelize [to; db_table] kw = Ok d
    ∧ field_class d = "models.ManyToManyField"
    ∧ field_args d = [to]
    ∧ field_options d !! "db_table" = Some db_table
    ∧ (∀ s, kw !! "related_name" = Some (VStr s) → s ≠ "" →
         field_options d !! "related_name" = Some (VStr s))
    ∧ (kw !! "related_name" = None ∨ kw !! "related_name" = Some VNone
       ∨ kw !! "related_name" = Some (VStr "") →
         field_options d !! "related_name"
         = Some (VStr (camelize (class_name to) +:+ "_set"))).
Proof.
  intros Ht Hd. unfold many_to_many_field.
  rewrite bind_param_positional by done. simpl.
  rewrite bind_param_positional by done. simpl.
  unfold dict_pop, construct, dict_update. simpl.
  rewrite !bool_decide_eq_true_2; simpl.
  - eexists. split; [reflexivity|]. simpl. repeat split.
    + by rewrite lookup_insert_eq.
    + intros s Hs Hne. rewrite lookup_insert_ne, lookup_insert_eq by done.
      rewrite Hs. simpl. unfold py_or. simpl.
      apply String.eqb_neq in Hne. by rewrite Hne.
    + intros Hs. rewrite lookup_insert_ne, lookup_insert_eq by done.
      by destruct Hs as [-> | [-> | ->]].
  - apply not_elem_of_dom. rewrite lookup_union, lookup_delete_eq. reflexivity.
  - apply not_elem_of_dom.
    rewrite lookup_union, lookup_delete_ne, Hd by done. reflexivity.
Qed.
End FactoryCalls.

Lemma parameter_given_twice_rejected_user :
  invoke (λ _, "") (λ s, s) UserRef {["to" := Site]} = Raise TypeError.
Proof.
  apply (parameter_given_twice_rejected (λ _, "") (λ s, s) UserRef
           {["to" := Site]} "to").
  - simpl. left.
  - discriminate.
  - by eexists.
Defined.

Lemma keywords_pass_through_help_text :
  ∃ d0 d,
    invoke (λ _, "") (λ s, s) Char ∅ = Ok d0
    ∧ invoke (λ _, "") (λ s, s) Char {["help_text" := VStr "code"]} = Ok d
    ∧ (∀ k v, ({["help_text" := VStr "code"]} : gmap string pyval) !! k = Some v →
              field_options d !! k = Some v)
    ∧ dom (field_options d)
      = dom ({["help_text" := VStr "code"]} : gmap string pyval)
        ∪ dom (field_options d0).
Proof.
  apply (keywords_pass_through (λ _, "") (λ s, s) Char {["help_text" := VStr "code"]}).
  simpl. constructor.
Defined.

Lemma many_to_many_related_name_tags :
  ∃ d,
    many_to_many_field (λ _, "tag") (λ _, "Tag")
      [VRef "blog.Tag"; VStr "post_tags"] ∅ = Ok d
    ∧ field_options d !! "related_name" = Some (VStr "Tag_set").
Proof.
  destruct (many_to_many_related_name (λ _, "tag") (λ _, "Tag")
              (VRef "blog.Tag") (VStr "post_tags") ∅
              (lookup_empty _) (lookup_empty _))
    as (d & Hd & _ & _ & _ & _ & Hdefault).
  exists d. split; [exact Hd|]. apply Hdefault. by left.
Defined.

(** ** Range validators, continued *)

Section ValidatorAcceptance.
Context (gettext : string → string).

Lemma latitude_validator_accepts v r :
  latitude_validator gettext v = Ok r →
  r = v ∧ ∃ q, as_float v = Some (FFinite q)
               ∧ (inject_Z (-90) < q ∧ q < inject_Z 90)%Q.
Proof.
  intros H. destruct (as_float v) as [[q| | |]|] eqn:Hv.
  - rewrite (latitude_validator_finite gettext v q Hv) in H.
    destruct (Qltb (inject_Z (-90)) q) eqn:E1; [|discriminate].
    destruct (Qltb q (inject_Z 90)) eqn:E2; [|discriminate].
    simpl in H. injection H as <-. split; [done|].
    exists q. split; [done|]. split; by apply Qltb_true.
  - unfold latitude_validator, py_lt in H. rewrite Hv in H. discriminate.
  - unfold latitude_validator, py_lt in H. rewrite Hv in H. discriminate.
  - unfold latitude_validator, py_lt in H. rewrite Hv in H. discriminate.
  - unfold latitude_validator, py_lt in H. rewrite Hv in H. discriminate.
Qed.

(** X7: every value the latitude validator accepts, the longitude validator
    accepts too. *)
Theorem latitude_accepted_is_longitude_accepted v r :
  latitude_validator gettext v = Ok r →
  longitude_validator gettext v = Ok v.
Proof.
  intros H. apply latitude_validator_accepts in H as (_ & q & Hv & Hlo & Hhi).
  rewrite (longitude_validator_finite gettext v q Hv).
  destruct (open_range_check (inject_Z (-180)) (inject_Z 180) q) as [Hin _].
  rewrite Hin; [done|]. split.
  - apply Qlt_trans with (inject_Z (-90)); [reflexivity | done].
  - apply Qlt_trans with (inject_Z 90); [done | reflexivity].
Qed.
End ValidatorAcceptance.

Lemma latitude_accepted_is_longitude_accepted_45 :
  longitude_validator (λ s, s) (VInt 45) = Ok (VInt 45).
Proof.
  apply (latitude_accepted_is_longitude_accepted (λ s, s) (VInt 45) (VInt 45)).
  reflexivity.
Defined.

(** ** Naming helpers, continued *)

Lemma replace_char_absent old new s :
  old ≠ new → ¬ In old (list_ascii_of_string (Inflection.replace_char old new s)).
Proof.
  intros Hne. induction s as [|c s IH]; simpl; [tauto|].
  intros [Heq | Hin]; [|tauto].
  destruct (Ascii.eqb c old) eqn:E.
  - by subst.
  - apply Ascii.eqb_neq in E. by subst.
Qed.

Lemma replace_char_length old new s :
  String.length (Inflection.replace_char old new s) = String.length s.
Proof. induction s as [|c s IH]; simpl; [done|]. by rewrite IH. Qed.

(** X8: a verbose class name never contains an underscore, whatever the class
    name, and it is as long as the table-name fragment of the same class. *)
Theorem verbose_class_name_has_no_underscore (class_name : string) :
  ¬ In "_"%char (list_ascii_of_string (verbose_class_name class_name))
  ∧ String.length (verbose_class_name class_name)
    = String.length (db_table_for_class class_name).
Proof.
  unfold verbose_class_name, db_table_for_class. split.
  - by apply replace_char_absent.
  - apply replace_char_length.
Qed.

Section NamingProperties.
Context (SITE_LABEL : string).

(** X9: [db_table] treats a site label that is left out, [None] or the empty
    string alike: the table name starts with [SITE_LABEL]. A non-empty label
    is used as it is, passed by position or by keyword, and an app name that
    is [None] is spelled "None" in the table name. *)
Theorem db_table_site_label_fallback (app_name : option string) (cls : string) :
  db_table SITE_LABEL [app_name; Some cls] ∅
  = Ok (SITE_LABEL +:+ "_" +:+ py_str app_name +:+ "_" +:+ db_table_for_class cls)
  ∧ db_table SITE_LABEL [app_name; Some cls; None] ∅
    = db_table SITE_LABEL [app_name; Some cls] ∅
  ∧ db_table SITE_LABEL [app_name; Some cls; Some ""] ∅
    = db_table SITE_LABEL [app_name; Some cls] ∅
  ∧ (∀ label, label ≠ "" →
       db_table SITE_LABEL [app_name; Some cls; Some label] ∅
       = Ok (label +:+ "_" +:+ py_str app_name +:+ "_" +:+ db_table_for_class cls))
  ∧ (∀ label,
       db_table SITE_LABEL [app_name; Some cls] {["site_label" := label]}
       = db_table SITE_LABEL [app_name; Some cls; label] ∅)
  ∧ db_table SITE_LABEL [None; Some cls] ∅
    = Ok (SITE_LABEL +:+ "_None_" +:+ db_table_for_class cls).
Proof.
  repeat split; try reflexivity.
  intros label Hne. by destruct label.
Qed.

(** X10: called with positional arguments only, [db_table] returns a name
    exactly when it gets an app name, a class name that is a string and at
    most a site label; otherwise it raises. *)
Theorem db_table_succeeds_iff (args : list (option string)) :
  (∃ table, db_table SITE_LABEL args ∅ = Ok table)
  ↔ (∃ app_name cls, args = [app_name; Some cls])
    ∨ (∃ app_name cls site_label, args = [app_name; Some cls; site_label]).
Proof.
  split.
  - intros [table H].
    destruct args as [|a [|[c|] [|s [|x rest]]]]; try discriminate H.
    + left. by exists a, c.
    + right. by exists a, c, s.
  - intros [(a & c & ->) | (a & c & s & ->)]; eexists; reflexivity.
Qed.
End NamingProperties.

(** ** Managers, continued *)

Lemma get_Ok_inv {Row} (self : Manager Row) criteria row :
  get self criteria = Ok row →
  List.filter criteria (manager_rows self) = [row]
  ∧ row ∈ manager_rows self ∧ criteria row = true.
Proof.
  unfold get. intros H.
  destruct (List.filter criteria (manager_rows self)) as [|r [|]] eqn:E;
    try discriminate.
  injection H as ->. split; [done|].
  assert (List.In row (List.filter criteria (manager_rows self))) as Hin
    by (rewrite E; by left).
  apply filter_In in Hin as [Hin Hc]. split; [by apply list_elem_of_In | done].
Qed.

Lemma get_DoesNotExist_inv {Row} (self : Manager Row) criteria :
  get self criteria = Raise DoesNotExist →
  ∀ r, r ∈ manager_rows self → criteria r = false.
Proof.
  unfold get. intros H r Hr.
  destruct (List.filter criteria (manager_rows self)) as [|r1 [|]] eqn:E;
    try discriminate.
  destruct (criteria r) eqn:Hc; [|done].
  assert (List.In r (List.filter criteria (manager_rows self))) as Hin
    by (apply filter_In; split; [by apply list_elem_of_In | done]).
  rewrite E in Hin. destruct Hin.
Qed.

Lemma get_raises {Row} (self : Manager Row) criteria e :
  get self criteria = Raise e →
  (e = DoesNotExist ∧ List.filter criteria (manager_rows self) = [])
  ∨ (e = MultipleObjectsReturned
     ∧ 2 ≤ length (List.filter criteria (manager_rows self))).
Proof.
  unfold get. intros H.
  destruct (List.filter criteria (manager_rows self)) as [|r1 [|]];
    try discriminate; injection H as <-.
  - by left.
  - right. split; [done|]. simpl. lia.
Qed.

(** X11: what [get_or_none] returns is sound: a row it returns is in the
    table, meets the criteria and is the only one that does; [None] means no
    row meets them. [DoesNotExist] never comes out of it, and every other
    error of the lookup comes out as it was raised. *)
Theorem get_or_none_sound {Row : Type}
    (self : Manager Row) (criteria : Row → bool) :
  (∀ row, get_or_none self criteria = Ok (Some row) →
     row ∈ manager_rows self ∧ criteria row = true
     ∧ List.filter criteria (manager_rows self) = [row])
  ∧ (get_or_none self criteria = Ok None →
       ∀ row, row ∈ manager_rows self → criteria row = false)
  ∧ get_or_none self criteria ≠ Raise DoesNotExist
  ∧ (∀ e, e ≠ DoesNotExist → get self criteria = Raise e →
       get_or_none self criteria = Raise e).
Proof.
  unfold get_or_none.
  destruct (get self criteria) as [r|e] eqn:E.
  - apply get_Ok_inv in E as (Hf & Hin & Hc). split; [|split; [|split]].
    + by intros row [= <-].
    + discriminate.
    + discriminate.
    + discriminate.
  - split; [|split; [|split]].
    + intros row H. by destruct e.
    + intros H. destruct e; try discriminate. by apply get_DoesNotExist_inv.
    + by destruct e.
    + intros e' Hne [= <-]. by destruct e.
Qed.

Section NamedInstanceProperties.
Context (UNKNOWN : string) (class_name : pyval → string).

(** X12: without any assumption on the table, [named_instance] logs at most
    one record, and none exactly when some row has the requested name; a row
    it returns is in the table and is named as requested, or is named
    [UNKNOWN] when no row has the requested name; and when two or more rows
    have the requested name it raises [MultipleObjectsReturned] without
    logging and without trying [UNKNOWN]. *)
Theorem named_instance_sound (self : Manager NamedModel) (n : string) :
  length (named_instance UNKNOWN class_name self n).2 ≤ 1
  ∧ ((named_instance UNKNOWN class_name self n).2 = []
     ↔ ∃ row, row ∈ manager_rows self ∧ name row = n)
  ∧ (∀ row, (named_instance UNKNOWN class_name self n).1 = Ok row →
       row ∈ manager_rows self
       ∧ (name row = n
          ∨ (name row = UNKNOWN
             ∧ ∀ r, r ∈ manager_rows self → name r ≠ n)))
  ∧ (2 ≤ length (List.filter (λ r, String.eqb (name r) n) (manager_rows self)) →
       named_instance UNKNOWN class_name self n
       = (Raise MultipleObjectsReturned, [])).
Proof.
  unfold named_instance.
  destruct (get self (λ r, String.eqb (name r) n)) as [row|e] eqn:E.
  - apply get_Ok_inv in E as (Hf & Hin & Hname). apply String.eqb_eq in Hname.
    simpl. repeat split.
    + lia.
    + intros _. by exists row.
    + by injection H as <-.
    + injection H as <-. by left.
    + intros Hlen. rewrite Hf in Hlen. simpl in Hlen. lia.
  - pose proof (get_raises _ _ _ E) as [[-> Hf] | [-> Hlen]].
    + pose proof (get_DoesNotExist_inv _ _ E) as Hnone. simpl.
      repeat split.
      * done.
      * discriminate.
      * intros (row & Hin & Hname). apply Hnone in Hin.
        apply String.eqb_neq in Hin. done.
      * by apply get_Ok_inv in H as (_ & ? & _).
      * right. apply get_Ok_inv in H as (_ & _ & Hu).
        apply String.eqb_eq in Hu. split; [done|].
        intros r Hr. by apply String.eqb_neq, Hnone.
      * intros Hlen. rewrite Hf in Hlen. simpl in Hlen. lia.
    + simpl. repeat split; try done.
      * lia.
      * intros _.
        destruct (List.filter (λ r, (name r =? n)%string) (manager_rows self))
          as [|row rest] eqn:Hf; [simpl in Hlen; lia|].
        assert (List.In row (List.filter (λ r, (name r =? n)%string)
                               (manager_rows self))) as Hin
          by (rewrite Hf; by left).
        apply filter_In in Hin as [Hin Hname]. exists row.
        split; [by apply list_elem_of_In | by apply String.eqb_eq].
Qed.
End NamedInstanceProperties.

(** X13: the display name of a named instance is its alias when that is a
    non-empty string and its name otherwise, so an instance with a non-empty
    name never displays as the empty string; [__str__] is the display name. *)
Theorem display_name_is_alias_or_name (self : NamedModel) :
  (∀ a, alias self = Some a → a ≠ "" → display_name self = a)
  ∧ (alias self = None ∨ alias self = Some "" → display_name self = name self)
  ∧ (name self ≠ "" → display_name self ≠ "")
  ∧ NamedModel_str self = display_name self.
Proof.
  unfold NamedModel_str, display_name. repeat split.
  - intros a -> Hne. apply String.eqb_neq in Hne. by rewrite Hne.
  - by intros [-> | ->].
  - intros Hname. destruct (alias self) as [a|]; [|done].
    destruct (String.eqb a "") eqn:E; [done|]. by apply String.eqb_neq.
Qed.

(** ** [VersionedModel.save], continued *)

(** X14: up to the superclass call, [save] writes three attributes at most:
    the version and the two user references. The identifier, the uuid, the
    flags, the time stamps, the creating user and the site are as they were. *)
Theorem save_prepare_frame is_User self (kwargs : gmap string pyval) :
  id (save_prepare is_User self kwargs).1 = id self
  ∧ uuid (save_prepare is_User self kwargs).1 = uuid self
  ∧ enabled (save_prepare is_User self kwargs).1 = enabled self
  ∧ deleted (save_prepare is_User self kwargs).1 = deleted self
  ∧ creation_time (save_prepare is_User self kwargs).1 = creation_time self
  ∧ update_time (save_prepare is_User self kwargs).1 = update_time self
  ∧ creation_user (save_prepare is_User self kwargs).1 = creation_user self
  ∧ site (save_prepare is_User self kwargs).1 = site self.
Proof.
  unfold save_prepare, dict_pop, assign_related. simpl.
  save_cases; repeat split; reflexivity.
Qed.

Lemma save_prepare_keywords is_User self (kwargs kwargs' : gmap string pyval) :
  (save_prepare is_User self kwargs).2 = Ok kwargs' →
  kwargs' = delete "effective_user" (delete "update_user" kwargs).
Proof.
  unfold save_prepare, dict_pop, assign_related. simpl.
  save_cases; intros H; by first [ discriminate H | injection H as <- ].
Qed.

Lemma save_prepare_error is_User self (kwargs : gmap string pyval) e :
  (save_prepare is_User self kwargs).2 = Raise e → e = ValueError.
Proof.
  unfold save_prepare, dict_pop, assign_related. simpl.
  save_cases; intros H; by first [ discriminate H | injection H as <- ].
Qed.

(** X15: when no assignment raises, the superclass [save] gets the instance
    as the body left it, the positional arguments as they were passed and the
    keywords without [update_user] and [effective_user], every other keyword
    unchanged. When an assignment raises, the error is a [ValueError], the
    superclass [save] is not called and the error is the outcome. *)
Theorem save_forwards_other_arguments
    (is_User : pyval → bool)
    (Model_save : VersionedModel → list pyval → gmap string pyval →
                  VersionedModel * result unit)
    self args (kwargs : gmap string pyval) :
  (∀ kwargs', (save_prepare is_User self kwargs).2 = Ok kwargs' →
     save is_User Model_save self args kwargs
     = Model_save (save_prepare is_User self kwargs).1 args kwargs'
     ∧ kwargs' !! "update_user" = None
     ∧ kwargs' !! "effective_user" = None
     ∧ (∀ k, k ≠ "update_user" → k ≠ "effective_user" →
          kwargs' !! k = kwargs !! k))
  ∧ (∀ e, (save_prepare is_User self kwargs).2 = Raise e →
       e = ValueError
       ∧ save is_User Model_save self args kwargs
         = ((save_prepare is_User self kwargs).1, Raise e)).
Proof.
  split.
  - intros kwargs' H. split.
    + unfold save. destruct (save_prepare is_User self kwargs) as [s' r].
      simpl in H. by subst.
    + apply save_prepare_keywords in H as ->. repeat split.
      * by rewrite lookup_delete_ne, lookup_delete_eq.
      * by rewrite lookup_delete_eq.
      * intros k H1 H2. by rewrite !lookup_delete_ne.
  - intros e H. split; [by apply save_prepare_error in H|].
    unfold save. destruct (save_prepare is_User self kwargs) as [s' r].
    simpl in H. by subst.
Qed.

(** X16: when [update_user] is passed with a value other than [None]:
    if it is a user and the [effective_user] passed is a user or is [None]
    or left out, both references are written (the effective user with what
    was passed, [None] when left out) and the superclass is called; if it is
    not a user, [ValueError] is raised and both references are as they were;
    if it is a user and the [effective_user] passed is neither [None] nor a
    user, [ValueError] is raised with the update user already written and
    the effective user as it was. *)
Theorem save_with_update_user_writes_both
    is_User self (kwargs : gmap string pyval) u :
  kwargs !! "update_user" = Some u → u ≠ VNone →
  (is_User u = true →
     default VNone (kwargs !! "effective_user") = VNone
     ∨ is_User (default VNone (kwargs !! "effective_user")) = true →
     update_user (save_prepare is_User self kwargs).1 = u
     ∧ effective_user (save_prepare is_User self kwargs).1
       = default VNone (kwargs !! "effective_user")
     ∧ (save_prepare is_User self kwargs).2
       = Ok (delete "effective_user" (delete "update_user" kwargs)))
  ∧ (is_User u = false →
       update_user (save_prepare is_User self kwargs).1 = update_user self
       ∧ effective_user (save_prepare is_User self kwargs).1
         = effective_user self
       ∧ (save_prepare is_User self kwargs).2 = Raise ValueError)
  ∧ (is_User u = true →
       default VNone (kwargs !! "effective_user") ≠ VNone →
       is_User (default VNone (kwargs !! "effective_user")) = false →
       update_user (save_prepare is_User self kwargs).1 = u
       ∧ effective_user (save_prepare is_User self kwargs).1
         = effective_user self
       ∧ (save_prepare is_User self kwargs).2 = Raise ValueError).
Proof.
  intros Hu Hne.
  assert (is_not_None u = true) as Hnn by (by destruct u).
  unfold save_prepare, dict_pop, assign_related.
  rewrite Hu, lookup_delete_ne by done. simpl. rewrite Hnn. simpl.
  split; [|split].
  - intros Huser He. rewrite Huser. simpl.
    destruct He as [He | He]; rewrite He; simpl; [done|].
    by rewrite andb_false_r.
  - intros Huser. by rewrite Huser.
  - intros Huser He1 He2. rewrite Huser, He2. simpl.
    assert (is_not_None (default VNone (kwargs !! "effective_user")) = true)
      as -> by (by destruct (default VNone (kwargs !! "effective_user"))).
    done.
Qed.

Lemma save_with_update_user_writes_both_users :
  update_user
    (save_prepare Samples.is_user Samples.record
       (<["update_user" := Samples.bob]>
          {["effective_user" := VRef "users.carol"]})).1
  = Samples.bob
  ∧ effective_user
      (save_prepare Samples.is_user Samples.record
         (<["update_user" := Samples.bob]>
            {["effective_user" := VRef "users.carol"]})).1
    = VRef "users.carol".
Proof.
  destruct (save_with_update_user_writes_both Samples.is_user Samples.record
              (<["update_user" := Samples.bob]>
                 {["effective_user" := VRef "users.carol"]}) Samples.bob)
    as [Hboth _].
  - reflexivity.
  - discriminate.
  - destruct Hboth as (H1 & H2 & _).
    + reflexivity.
    + right. reflexivity.
    + split; [exact H1 | exact H2].
Defined.

(** X17: when [update_user] is left out or is [None], neither user reference
    is written, whatever else is passed, [effective_user] included. *)
Theorem save_without_update_user_keeps_users
    is_User self (kwargs : gmap string pyval) :
  kwargs !! "update_user" = None ∨ kwargs !! "update_user" = Some VNone →
  update_user (save_prepare is_User self kwargs).1 = update_user self
  ∧ effective_user (save_prepare is_User self kwargs).1 = effective_user self.
Proof.
  intros Hu. unfold save_prepare, dict_pop.
  by destruct Hu as [-> | ->].
Qed.

Lemma save_without_update_user_keeps_users_carol :
  update_user
    (save_prepare Samples.is_user Samples.record
       (<["force_insert" := VBool true]>
          {["effective_user" := VRef "users.carol"]})).1
  = update_user Samples.record
  ∧ effective_user
      (save_prepare Samples.is_user Samples.record
         (<["force_insert" := VBool true]>
            {["effective_user" := VRef "users.carol"]})).1
    = effective_user Samples.record.
Proof.
  apply (save_without_update_user_keeps_users Samples.is_user Samples.record
           (<["force_insert" := VBool true]>
              {["effective_user" := VRef "users.carol"]})).
  left. reflexivity.
Defined.

(** ** The declarations of the base classes *)

(** X18: every field declaration in the bodies of the three abstract classes
    evaluates to a descriptor (no call raises); the field names of a named
    model, inherited ones included, are pairwise distinct; and what the
    [Meta] classes name is declared: [get_latest_by], inherited by
    [NamedModel.Meta], is the date-time field refreshed on every save, and
    [ordering] is the [name] field. *)
Theorem base_class_declarations_well_formed :
  is_Some (declared VersionedModel_fields)
  ∧ is_Some (declared NamedModel_fields)
  ∧ is_Some (declared PrioritizedModel_fields)
  ∧ NoDup (NamedModel_fields.*1)
  ∧ get_latest_by NamedModel_Meta = get_latest_by VersionedModel_Meta
  ∧ (∃ d, get_latest_by NamedModel_Meta = Some "update_time"
          ∧ ("update_time", Ok d) ∈ NamedModel_fields
          ∧ field_class d = "models.DateTimeField"
          ∧ field_options d !! "auto_now" = Some (VBool true)
          ∧ field_options d !! "auto_now_add" = Some (VBool false))
  ∧ Forall (λ k, k ∈ NamedModel_fields.*1) (ordering NamedModel_Meta).
Proof.
  split; [by eexists|]. split; [by eexists|]. split; [by eexists|].
  split; [apply (bool_decide_unpack _); vm_compute; exact I|].
  split; [reflexivity|]. split.
  - eexists. split; [reflexivity|]. split.
    + do 6 right. left.
    + repeat split; reflexivity.
  - repeat constructor.
Qed.

(** X19: every relation a versioned model declares (the three users and the
    site) blocks the deletion of its target, is required ([null] and [blank]
    false), keeps its database constraint and has a reverse name of its own:
    the four reverse names are pairwise distinct. *)
Theorem versioned_model_relations_protected :
  Forall
    (λ nf, match nf.2 with
           | Ok d =>
               field_class d = "models.ForeignKey" →
               field_options d !! "on_delete" = Some PROTECT
               ∧ field_options d !! "null" = Some (VBool false)
               ∧ field_options d !! "blank" = Some (VBool false)
               ∧ field_options d !! "db_constraint" = Some (VBool true)
               ∧ is_Some (field_options d !! "related_name")
           | Raise _ => False
           end)
    VersionedModel_fields
  ∧ ∃ names,
      omap (λ nf, match nf.2 with
                  | Ok d => field_options d !! "related_name"
                  | Raise _ => None
                  end) VersionedModel_fields = names
      ∧ length names = 4 ∧ NoDup names.
Proof.
  split.
  - repeat (apply Forall_cons; split); try (by apply Forall_nil_2); vm_compute;
      first [ intros H; discriminate H
            | intros _; repeat (split; [reflexivity|]); by eexists ].
  - exists [VStr "%(app_label)s_%(class)s_related_creation_user";
            VStr "%(app_label)s_%(class)s_related_update_user";
            VStr "%(app_label)s_%(class)s_related_effective_user";
            VStr "%(app_label)s_%(class)s_related_site"].
    split; [reflexivity|]. split; [reflexivity|].
    repeat (apply NoDup_cons; split); try apply NoDup_nil_2;
      rewrite ?elem_of_cons; intros H;
      repeat (destruct H as [H | H]; [discriminate H|]);
      by apply elem_of_nil in H.
Qed.

(** ** Decimal precision by position and by keyword *)

(** X20: [decimal_field] returns the same descriptor whether the precision is
    passed by position, by keyword, or the digits by position and the places
    by keyword. *)
Theorem decimal_field_precision_by_keyword
    max_digits decimal_places (kw : gmap string pyval) :
  kw !! "max_digits" = None → kw !! "decimal_places" = None →
  decimal_field []
    (<["max_digits" := max_digits]> (<["decimal_places" := decimal_places]> kw))
  = decimal_field [max_digits; decimal_places] kw
  ∧ decimal_field [max_digits] (<["decimal_places" := decimal_places]> kw)
    = decimal_field [max_digits; decimal_places] kw.
Proof.
  intros Hm Hd.
  assert (decimal_field [max_digits; decimal_places] kw
          = Ok (mkField "models.DecimalField" []
                  (kw ∪ decimal_field_defaults max_digits decimal_places)))
    as ->.
  { unfold decimal_field. rewrite bind_param_positional by done. simpl.
    by rewrite bind_param_positional by done. }
  split.
  - rewrite (decimal_field_keywords _ max_digits decimal_places);
      [| by rewrite lookup_insert_eq
       | by rewrite lookup_insert_ne, lookup_insert_eq ].
    do 2 f_equal. apply map_eq; intros k.
    rewrite !lookup_union.
    destruct (decide ("max_digits" = k)) as [<-|].
    { by rewrite lookup_insert_eq, Hm. }
    destruct (decide ("decimal_places" = k)) as [<-|].
    { by rewrite lookup_insert_ne, lookup_insert_eq, Hd by done. }
    rewrite !lookup_insert_ne by done.
    unfold decimal_field_defaults, decimal_rest, dict. simpl.
    rewrite (lookup_insert_ne _ "decimal_places") by done.
    by rewrite (lookup_insert_ne _ "max_digits") by done.
  - unfold decimal_field.
    rewrite bind_param_positional by (by rewrite lookup_insert_ne).
    simpl.
    rewrite (bind_param_keyword _ _ decimal_places)
      by (by rewrite lookup_insert_eq).
    simpl. unfold construct; simpl. do 2 f_equal.
    by rewrite delete_insert_eq, delete_id.
Qed.

Lemma decimal_field_precision_by_keyword_9_6 :
  decimal_field []
    (<["max_digits" := VInt 9]> (<["decimal_places" := VInt 6]> ∅))
  = decimal_field [VInt 9; VInt 6] ∅
  ∧ decimal_field [VInt 9] (<["decimal_places" := VInt 6]> ∅)
    = decimal_field [VInt 9; VInt 6] ∅.
Proof.
  apply (decimal_field_precision_by_keyword (VInt 9) (VInt 6) ∅).
  - apply lookup_empty.
  - apply lookup_empty.
Defined.
